(** * Emergency triage: vitals extraction, merge and decision engine

    A shallow embedding of [src/services/triageEngine.ts] (the deterministic
    decision engine), of [src/services/geminiService.ts] (the local regex
    parser and the supervisor around the two remote calls) and of the types
    they share, followed by the properties of the written specification.

    Conventions of the embedding.
    - A JavaScript [number] is [number] below: a rational, the two
      infinities, or NaN.  Every finite double is a rational and the
      comparisons of doubles agree with those of the rationals they denote;
      the thresholds of the engine (90, 92, 38.0, ...) are doubles.  The
      two zeros of IEEE 754 are one value here: they compare equal and both
      are falsy.
    - An optional field [f?: T] of an interface is [option T]; [None] is
      the missing property ([undefined] when read).
    - The score is an integer: the engine only ever adds the literals
      1, 2 and 3 to 0, which doubles do exactly.
    - A string is a [string] of 8-bit characters: the text in UTF-8.  An
      ASCII character is one byte, the same as its UTF-16 code unit; every
      other character is two to four bytes, all of them 128 or more.  The
      patterns of the parser name ASCII characters only, apart from [\s],
      whose characters outside ASCII are matched by their UTF-8 forms, and
      the keywords are ASCII, so matching bytes and matching code units
      find the same matches and the same captures. *)

From Stdlib Require Import ZArith QArith Bool List String Ascii Lia.
From Stdlib Require Import DecimalString.
Import ListNotations.

Open Scope string_scope.
Open Scope list_scope.
Open Scope Z_scope.

(** ** JavaScript numbers *)

Module JS.

Inductive number : Type :=
| NaN
| NegInfinity
| PosInfinity
| Fin (q : Q).

Coercion Fin : Q >-> number.

(** The value read from an optional numeric property. *)
Definition value := option number.

(** ToBoolean: [undefined], NaN and zero are falsy. *)
Definition truthy (v : value) : bool :=
  match v with
  | None => false
  | Some NaN => false
  | Some (Fin q) => negb (Qeq_bool q 0)
  | Some _ => true
  end.

(** The zero of the numbers (either sign). *)
Definition is_zero (n : number) : bool :=
  match n with
  | Fin q => Qeq_bool q 0
  | _ => false
  end.

(** ToNumber on the left operand of a comparison: [undefined] becomes NaN. *)
Definition ToNumber (v : value) : number :=
  match v with
  | None => NaN
  | Some n => n
  end.

Definition Qlt_bool (x y : Q) : bool := negb (Qle_bool y x).

Definition num_lt (a b : number) : bool :=
  match a, b with
  | NaN, _ | _, NaN => false
  | NegInfinity, NegInfinity => false
  | NegInfinity, _ => true
  | _, NegInfinity => false
  | PosInfinity, _ => false
  | Fin _, PosInfinity => true
  | Fin x, Fin y => Qlt_bool x y
  end.

Definition num_le (a b : number) : bool :=
  match a, b with
  | NaN, _ | _, NaN => false
  | NegInfinity, _ => true
  | _, NegInfinity => false
  | _, PosInfinity => true
  | PosInfinity, Fin _ => false
  | Fin x, Fin y => Qle_bool x y
  end.

(** [a < b], [a > b], [a >= b] with [a] a property read and [b] a literal. *)
Definition lt (a : value) (b : number) : bool := num_lt (ToNumber a) b.
Definition gt (a : value) (b : number) : bool := num_lt b (ToNumber a).
Definition ge (a : value) (b : number) : bool := num_le b (ToNumber a).

(** The literals of the source are read as rationals. *)
Arguments lt a b%_Q.
Arguments gt a b%_Q.
Arguments ge a b%_Q.

End JS.

Import JS.

Declare Scope js_scope.
Delimit Scope js_scope with js.
Notation "a <? b" := (JS.lt a b) : js_scope.
Notation "a >? b" := (JS.gt a b) : js_scope.
Notation "a >=? b" := (JS.ge a b) : js_scope.

(** ** Types ([types.ts]) *)

Inductive TriageLevel : Type := CRITICAL | URGENT | STABLE | UNKNOWN.

(** The string value of each member of the enum; [URGENT] is ['MODERATE']. *)
Definition TriageLevel_value (p : TriageLevel) : string :=
  match p with
  | CRITICAL => "CRITICAL"
  | URGENT => "MODERATE"
  | STABLE => "STABLE"
  | UNKNOWN => "UNKNOWN"
  end.

Inductive Language : Type := en | hi | mr.

Inductive Consciousness : Type := alert | confused | drowsy | unconscious.

Inductive DoctorAssessment : Type := low | moderate | critical.

Record Vitals : Type := mkVitals {
  age : value;
  systolic_bp : value;
  heart_rate : value;
  spo2 : value;
  temperature : value;
  consciousness : option Consciousness;
  doctor_assessment : option DoctorAssessment
}.

Record ABCDEStatus : Type := mkABCDE {
  A_Airway : string;
  B_Breathing : string;
  C_Circulation : string;
  D_Disability : string;
  E_Exposure : string
}.

Record TriageResult : Type := mkTriageResult {
  priority : TriageLevel;
  score : Z;
  reasons : list string;
  red_flags_detected : bool;
  abcde_status : ABCDEStatus;
  narrative_summary : string;
  decision_pathway : string
}.

(** The object literal [{}]. *)
Definition empty_vitals : Vitals :=
  mkVitals None None None None None None None.

(** Assignments to one property, [vitals.f = x]; with [None], the record
    in which the property is missing. *)
Definition set_age (x : value) (v : Vitals) : Vitals :=
  mkVitals x (systolic_bp v) (heart_rate v) (spo2 v) (temperature v)
           (consciousness v) (doctor_assessment v).
Definition set_systolic_bp (x : value) (v : Vitals) : Vitals :=
  mkVitals (age v) x (heart_rate v) (spo2 v) (temperature v)
           (consciousness v) (doctor_assessment v).
Definition set_heart_rate (x : value) (v : Vitals) : Vitals :=
  mkVitals (age v) (systolic_bp v) x (spo2 v) (temperature v)
           (consciousness v) (doctor_assessment v).
Definition set_spo2 (x : value) (v : Vitals) : Vitals :=
  mkVitals (age v) (systolic_bp v) (heart_rate v) x (temperature v)
           (consciousness v) (doctor_assessment v).
Definition set_temperature (x : value) (v : Vitals) : Vitals :=
  mkVitals (age v) (systolic_bp v) (heart_rate v) (spo2 v) x
           (consciousness v) (doctor_assessment v).
Definition set_consciousness (x : option Consciousness) (v : Vitals) : Vitals :=
  mkVitals (age v) (systolic_bp v) (heart_rate v) (spo2 v) (temperature v)
           x (doctor_assessment v).

Definition set_doctor_assessment (x : option DoctorAssessment) (v : Vitals)
  : Vitals :=
  mkVitals (age v) (systolic_bp v) (heart_rate v) (spo2 v) (temperature v)
           (consciousness v) x.

(** [vitals.consciousness === c] and [vitals.doctor_assessment === a]. *)
Definition consciousness_is (v : Vitals) (c : Consciousness) : bool :=
  match consciousness v, c with
  | Some alert, alert | Some confused, confused
  | Some drowsy, drowsy | Some unconscious, unconscious => true
  | _, _ => false
  end.

Definition doctor_assessment_is (v : Vitals) (a : DoctorAssessment) : bool :=
  match doctor_assessment v, a with
  | Some low, low | Some moderate, moderate | Some critical, critical => true
  | _, _ => false
  end.

(** ** The decision engine ([triageEngine.ts]) *)

Module TriageEngine.

Local Open Scope js_scope.

(** [if (c) flags.push(msg)] *)
Definition push_if (c : bool) (msg : string) (flags : list string) : list string :=
  if c then flags ++ [msg] else flags.

Definition checkRedFlags (vitals : Vitals) : list string :=
  let flags := [] in
  let flags := push_if (truthy (spo2 vitals) && (spo2 vitals <? 90))
                 "Oxygen saturation critically low (<90%)" flags in
  let flags := push_if (consciousness_is vitals unconscious)
                 "Patient is unconscious" flags in
  let flags := push_if (truthy (systolic_bp vitals) && (systolic_bp vitals <? 90))
                 "Blood pressure critically low (<90 mmHg)" flags in
  let flags := push_if (doctor_assessment_is vitals critical)
                 "Clinical provider indicates critical condition" flags in
  flags.

Definition computeABCDE (vitals : Vitals) : ABCDEStatus :=
  {| A_Airway := if consciousness_is vitals unconscious then "AT RISK" else "OPEN";
     B_Breathing :=
       if negb (truthy (spo2 vitals)) then "UNKNOWN"
       else if spo2 vitals <? 90 then "CRITICAL"
       else if spo2 vitals <? 92 then "LOW-NORMAL"
       else "ADEQUATE";
     C_Circulation :=
       if negb (truthy (systolic_bp vitals)) then "UNKNOWN"
       else if systolic_bp vitals <? 90 then "SHOCK"
       else if systolic_bp vitals <? 100 then "LOW-NORMAL"
       else if systolic_bp vitals >? 180 then "HYPERTENSIVE"
       else "ADEQUATE";
     D_Disability :=
       if consciousness_is vitals unconscious then "UNCONSCIOUS"
       else if consciousness_is vitals drowsy then "DROWSY"
       else "ALERT";
     E_Exposure :=
       if negb (truthy (temperature vitals)) then "UNKNOWN"
       else if (temperature vitals >? 40) || (temperature vitals <? 35) then "CRITICAL"
       else if temperature vitals >? 38 then "FEVER"
       else "NORMAL" |}.

(** The two locals of the scoring path, [score] and [reasons]. *)
Definition tally : Type := (Z * list string)%type.

(** [score += w; reasons.push(msg)] *)
Definition fire (w : Z) (msg : string) (t : tally) : tally :=
  (fst t + w, snd t ++ [msg]).

Definition rule (c : bool) (w : Z) (msg : string) (t : tally) : tally :=
  if c then fire w msg t else t.

Definition rule_breathing (vitals : Vitals) : tally -> tally :=
  rule (truthy (spo2 vitals) && (spo2 vitals >=? 90) && (spo2 vitals <? 92))
       2 "Oxygen saturation in low-normal range (90-92%)".

Definition rule_heart_rate (vitals : Vitals) : tally -> tally :=
  rule (truthy (heart_rate vitals)
        && ((heart_rate vitals <? 50) || (heart_rate vitals >? 120)))
       2 "Heart rate abnormal: below 50 or above 120 bpm".

Definition rule_blood_pressure (vitals : Vitals) (t : tally) : tally :=
  if truthy (systolic_bp vitals) then
    if (systolic_bp vitals >=? 80) && (systolic_bp vitals <? 90) then
      fire 2 "Blood pressure in low-normal range (80-90 mmHg)" t
    else if systolic_bp vitals >? 180 then
      fire 2 "Blood pressure elevated above 180 mmHg" t
    else t
  else t.

Definition rule_disability (vitals : Vitals) : tally -> tally :=
  rule (consciousness_is vitals drowsy) 3 "Patient is drowsy".

Definition rule_exposure (vitals : Vitals) : tally -> tally :=
  rule (truthy (temperature vitals) && (temperature vitals >? 38.0))
       1 "Body temperature elevated above 38°C".

Definition rule_age (vitals : Vitals) : tally -> tally :=
  rule (truthy (age vitals) && (age vitals >? 60))
       1 "Patient age over 60 years".

Definition rule_provider (vitals : Vitals) : tally -> tally :=
  rule (doctor_assessment_is vitals moderate)
       2 "Provider assessment indicates moderate risk".

(** Lines 26 to 73: the seven rules, in the order they are written. *)
Definition accumulate (vitals : Vitals) : tally :=
  rule_provider vitals
    (rule_age vitals
      (rule_exposure vitals
        (rule_disability vitals
          (rule_blood_pressure vitals
            (rule_heart_rate vitals
              (rule_breathing vitals (0, []))))))).

(** Lines 75 to 77. *)
Definition priority_of_score (score : Z) : TriageLevel :=
  if (score >=? 7)%Z then CRITICAL
  else if (score >=? 4)%Z then URGENT
  else STABLE.

(** [`${score}`] for the integer scores of the engine. *)
Definition show_score (score : Z) : string :=
  NilZero.string_of_int (Z.to_int score).

(** [redFlags[0]], read only where the array is not empty. *)
Definition first_flag (flags : list string) : string :=
  match flags with
  | f :: _ => f
  | [] => "undefined"
  end.

Definition calculate (vitals : Vitals) : TriageResult :=
  let redFlags := checkRedFlags vitals in
  if (0 <? Z.of_nat (List.length redFlags))%Z then
    let priority := CRITICAL in
    {| priority := priority;
       score := 10;
       reasons := redFlags;
       red_flags_detected := true;
       abcde_status := computeABCDE vitals;
       narrative_summary :=
         "CRITICAL: " ++ first_flag redFlags
           ++ ". Immediate emergency response required.";
       decision_pathway := "RED FLAG DETECTED → CRITICAL (scored 10/10)" |}
  else
    let '(score, reasons) := accumulate vitals in
    let priority := priority_of_score score in
    {| priority := priority;
       score := score;
       reasons := reasons;
       red_flags_detected := false;
       abcde_status := computeABCDE vitals;
       narrative_summary :=
         if (0 <? Z.of_nat (List.length reasons))%Z
         then TriageLevel_value priority ++ ": "
                ++ String.concat ", " reasons ++ "."
         else TriageLevel_value priority
                ++ ": All vital signs within normal limits.";
       decision_pathway :=
         "NO RED FLAGS → SCORE " ++ show_score score ++ "/10 → "
           ++ TriageLevel_value priority ++ " PRIORITY" |}.

End TriageEngine.

(** ** Regular expressions, as the local parser uses them

    A backtracking matcher for the fragment the six patterns of
    [localExtract] are written in: character classes, sequence, ordered
    alternation, greedy [*] and [{least,most}] over a class, greedy [\s*],
    and capturing groups that follow one another.  [String.prototype.match] with a pattern that
    has no [g] flag returns the leftmost match, trying each start index in
    turn. *)

Module RegExp.

Definition code (c : ascii) : nat := nat_of_ascii c.

(** [\d] and [\D]: the ten ASCII digits, and every other byte. *)
Definition digit (c : ascii) : bool :=
  ((48 <=? code c) && (code c <=? 57))%nat.
Definition non_digit (c : ascii) : bool := negb (digit c).

(** [\s]: the white space and the line terminators of ECMAScript.  In
    UTF-8 they are
    - one byte: U+0009 to U+000D and U+0020;
    - two bytes: U+00A0 (C2 A0);
    - three bytes: U+1680 (E1 9A 80), U+2000 to U+200A (E2 80 80 to 8A),
      U+2028, U+2029 and U+202F (E2 80 A8, A9, AF), U+205F (E2 81 9F),
      U+3000 (E3 80 80) and U+FEFF (EF BB BF). *)
Definition blank1 (c : ascii) : bool :=
  ((9 <=? code c) && (code c <=? 13) || (code c =? 32))%nat.
Definition blank2 (c c1 : ascii) : bool :=
  ((code c =? 194) && (code c1 =? 160))%nat.
Definition blank3 (c c1 c2 : ascii) : bool :=
  ((code c =? 225) && (code c1 =? 154) && (code c2 =? 128)
   || (code c =? 226) && (code c1 =? 128)
      && ((128 <=? code c2) && (code c2 <=? 138) || (code c2 =? 168)
          || (code c2 =? 169) || (code c2 =? 175))
   || (code c =? 226) && (code c1 =? 129) && (code c2 =? 159)
   || (code c =? 227) && (code c1 =? 128) && (code c2 =? 128)
   || (code c =? 239) && (code c1 =? 187) && (code c2 =? 191))%nat.

(** The text after one [\s] character at its head, if it starts with one. *)
Definition after_blank (s : string) : option string :=
  match s with
  | EmptyString => None
  | String c s1 =>
      if blank1 c then Some s1
      else match s1 with
           | EmptyString => None
           | String c1 s2 =>
               if blank2 c c1 then Some s2
               else match s2 with
                    | EmptyString => None
                    | String c2 s3 => if blank3 c c1 c2 then Some s3 else None
                    end
           end
  end.

Definition lower_char (c : ascii) : ascii :=
  if ((65 <=? code c) && (code c <=? 90))%nat
  then ascii_of_nat (code c + 32) else c.

(** A literal character, and the same under the [i] flag.  The letters of
    the patterns are ASCII, and without the [u] flag a character outside
    ASCII is never equal to an ASCII letter whatever its case (its upper
    case is taken only when that is not an ASCII character), so the flag
    folds the case of ASCII letters and nothing else. *)
Definition exactly (a : ascii) : ascii -> bool := Ascii.eqb a.
Definition ignoring_case (a : ascii) : ascii -> bool :=
  fun c => Ascii.eqb (lower_char a) (lower_char c).

Inductive regex : Type :=
| Empty
| Class (p : ascii -> bool)
| Seq (r1 r2 : regex)
| Alt (r1 r2 : regex)
| Star (p : ascii -> bool)
| Blanks
| Repeat (least most : nat) (p : ascii -> bool)
| Group (r : regex).

Fixpoint literal (char : ascii -> ascii -> bool) (s : string) : regex :=
  match s with
  | EmptyString => Empty
  | String a EmptyString => Class (char a)
  | String a s' => Seq (Class (char a)) (literal char s')
  end.

Section Matcher.

Context {A : Type}.

(** Greedy [p*]: the longest run first, then shorter ones. *)
Fixpoint star (p : ascii -> bool) (s : string) (k : string -> option A)
  : option A :=
  match s with
  | String c s' =>
      if p c then
        match star p s' k with
        | Some m => Some m
        | None => k s
        end
      else k s
  | EmptyString => k s
  end.

(** Greedy [\s*]: as [star], one [\s] character at a time. *)
Fixpoint blanks (s : string) (k : string -> option A) : option A :=
  let or_stop (r : option A) :=
    match r with
    | Some m => Some m
    | None => k s
    end in
  match s with
  | EmptyString => k s
  | String c s1 =>
      if blank1 c then or_stop (blanks s1 k)
      else match s1 with
           | EmptyString => k s
           | String c1 s2 =>
               if blank2 c c1 then or_stop (blanks s2 k)
               else match s2 with
                    | EmptyString => k s
                    | String c2 s3 =>
                        if blank3 c c1 c2 then or_stop (blanks s3 k) else k s
                    end
           end
  end.

(** Greedy [p{least,most}]. *)
Fixpoint repeat (p : ascii -> bool) (least most : nat) (s : string)
  (k : string -> option A) : option A :=
  let stop := match least with O => k s | S _ => None end in
  match most with
  | O => stop
  | S most' =>
      match s with
      | String c s' =>
          if p c then
            match repeat p (Nat.pred least) most' s' k with
            | Some m => Some m
            | None => stop
            end
          else stop
      | EmptyString => stop
      end
  end.

End Matcher.

(** The text a group matched: what [s] lost on the way to [s']. *)
Definition consumed (s s' : string) : string :=
  substring 0 (String.length s - String.length s') s.

(** The captures, in the order the groups close. *)
Definition captures : Type := list string.

Fixpoint run (r : regex) (s : string) (caps : captures)
  (k : string -> captures -> option captures) : option captures :=
  match r with
  | Empty => k s caps
  | Class p =>
      match s with
      | String c s' => if p c then k s' caps else None
      | EmptyString => None
      end
  | Seq r1 r2 => run r1 s caps (fun s1 caps1 => run r2 s1 caps1 k)
  | Alt r1 r2 =>
      match run r1 s caps k with
      | Some m => Some m
      | None => run r2 s caps k
      end
  | Star p => star p s (fun s' => k s' caps)
  | Blanks => blanks s (fun s' => k s' caps)
  | Repeat least most p => repeat p least most s (fun s' => k s' caps)
  | Group r1 => run r1 s caps (fun s' caps' => k s' (caps' ++ [consumed s s']))
  end.

(** [input.match(r)]: [None] is [null], [Some caps] the match array
    without its element 0. *)
Fixpoint match_ (input : string) (r : regex) : option captures :=
  match run r input [] (fun _ caps => Some caps) with
  | Some m => Some m
  | None =>
      match input with
      | EmptyString => None
      | String _ rest => match_ rest r
      end
  end.

(** [m[i]] for [i >= 1]. *)
Definition group (i : nat) (m : captures) : string :=
  nth (Nat.pred i) m "".

End RegExp.

(** ** The service ([geminiService.ts]) *)

(** What a call that may throw does: the remote requests and [JSON.parse]. *)
Inductive outcome (A : Type) : Type :=
| Throws
| Returns (a : A).

Arguments Throws {A}.
Arguments Returns {A} a.

(** The parsed reply of the explanation request; either property may be
    missing from it. *)
Record Content : Type := mkContent {
  explanation : option string;
  firstAidText : option string
}.

(** The remote model behind [this.ai], one function per request of the
    supervisor.  Each gives the outcome of [generateContent] followed by
    [JSON.parse(response.text || '{}')] and, for the explanation, the
    reading of its two properties: [Throws] when the request, the parse or
    that reading throws, [Returns] with the parsed object otherwise (the
    empty object when the reply has no text).  The explanation request is made from
    the priority and the reasons of the triage, the input and the
    language. *)
Record GoogleGenAI : Type := mkAI {
  extractVitals : string -> outcome Vitals;
  explain : TriageLevel -> list string -> string -> Language -> outcome Content
}.

(** What [processEmergencyChat] resolves to. *)
Record Reply : Type := mkReply {
  vitals : Vitals;
  triage : TriageResult;
  aiExplanation : option string;
  firstAid : option string;
  isOffline : bool
}.

(** What a run does besides computing its reply. *)
Inductive Event : Type :=
| ExtractionRequest (input : string)
| EngineCall (v : Vitals)
| ExplanationRequest (p : TriageLevel) (rs : list string) (input : string)
                     (lang : Language)
| ConsoleWarn.

(** Computations that log events and may throw; the log survives a throw. *)
Module Run.

Definition M (A : Type) : Type := list Event -> outcome A * list Event.

Definition ret {A} (a : A) : M A := fun log => (Returns a, log).

Definition bind {A B} (m : M A) (f : A -> M B) : M B :=
  fun log =>
    match m log with
    | (Returns a, log') => f a log'
    | (Throws, log') => (Throws, log')
    end.

Definition emit (e : Event) : M unit := fun log => (Returns tt, log ++ [e]).

Definition lift {A} (o : outcome A) : M A := fun log => (o, log).

(** [try { body } catch (error) { handler }] *)
Definition try_catch {A} (body handler : M A) : M A :=
  fun log =>
    match body log with
    | (Returns a, log') => (Returns a, log')
    | (Throws, log') => handler log'
    end.

End Run.

Notation "x <- m ;; k" := (Run.bind m (fun x => k))
  (at level 61, m at next level, right associativity).
Notation "m ;;; k" := (Run.bind m (fun _ => k))
  (at level 61, right associativity).

Module GeminiService.

Import RegExp.

(** [parseInt] on the text of a capture, a run of decimal digits. *)
Fixpoint digits_value (acc : Z) (s : string) : Z :=
  match s with
  | String c s' =>
      if digit c then digits_value (acc * 10 + (Z.of_nat (code c) - 48)) s'
      else acc
  | EmptyString => acc
  end.

Definition parseInt (s : string) : number :=
  match s with
  | String c _ => if digit c then Fin (inject_Z (digits_value 0 s)) else NaN
  | EmptyString => NaN
  end.

(** [toLowerCase], as far as ASCII text can tell.  The characters whose
    lower case is or holds an ASCII letter are A to Z, U+0130 (C4 B0 in
    UTF-8), which becomes i followed by U+0307 (CC 87), and U+212A, the
    Kelvin sign (E2 84 AA), which becomes k.  Every other character outside
    ASCII becomes characters outside ASCII; they are left as they are, which
    [includes] with an ASCII keyword does not see. *)
Definition capital_i_dot (c c1 : ascii) : bool :=
  ((code c =? 196) && (code c1 =? 176))%nat.
Definition kelvin_sign (c c1 c2 : ascii) : bool :=
  ((code c =? 226) && (code c1 =? 132) && (code c2 =? 170))%nat.

Fixpoint toLowerCase (s : string) : string :=
  match s with
  | EmptyString => EmptyString
  | String c s1 =>
      match s1 with
      | EmptyString => String (lower_char c) (toLowerCase s1)
      | String c1 s2 =>
          if capital_i_dot c c1
          then String "i" (String (ascii_of_nat 204) (String (ascii_of_nat 135)
                 (toLowerCase s2)))
          else match s2 with
               | EmptyString => String (lower_char c) (toLowerCase s1)
               | String c2 s3 =>
                   if kelvin_sign c c1 c2 then String "k" (toLowerCase s3)
                   else String (lower_char c) (toLowerCase s1)
               end
      end
  end.

(** [s.includes(t)] *)
Fixpoint includes (s t : string) : bool :=
  if prefix t s then true
  else match s with
       | EmptyString => false
       | String _ s' => includes s' t
       end.

(** [a || b] on two match results. *)
Definition or_else (a b : option captures) : option captures :=
  match a with
  | Some m => Some m
  | None => b
  end.

Definition keyword := literal ignoring_case.

(** [/(?:spo2|oxygen|o2)\D*(\d{2,3})/i] and [/(\d{2,3})\s*%/] *)
Definition spo2_keyword : regex :=
  Seq (Alt (keyword "spo2") (Alt (keyword "oxygen") (keyword "o2")))
      (Seq (Star non_digit) (Group (Repeat 2 3 digit))).
Definition spo2_percent : regex :=
  Seq (Group (Repeat 2 3 digit)) (Seq Blanks (literal exactly "%")).

(** [/(\d{2,3})\/(\d{2,3})/] and [/(?:bp|pressur)\D*(\d{2,3})/i] *)
Definition bp_pair : regex :=
  Seq (Group (Repeat 2 3 digit))
      (Seq (literal exactly "/") (Group (Repeat 2 3 digit))).
Definition bp_keyword : regex :=
  Seq (Alt (keyword "bp") (keyword "pressur"))
      (Seq (Star non_digit) (Group (Repeat 2 3 digit))).

(** [/(?:hr|heart|pulse)\D*(\d{2,3})/i] and [/(\d{2,3})\s*bpm/i] *)
Definition hr_keyword : regex :=
  Seq (Alt (keyword "hr") (Alt (keyword "heart") (keyword "pulse")))
      (Seq (Star non_digit) (Group (Repeat 2 3 digit))).
Definition hr_bpm : regex :=
  Seq (Group (Repeat 2 3 digit)) (Seq Blanks (keyword "bpm")).

Definition localExtract (input : string) : Vitals :=
  let vitals := empty_vitals in
  let lower := toLowerCase input in
  let spo2Match := or_else (match_ input spo2_keyword) (match_ input spo2_percent) in
  let vitals :=
    match spo2Match with
    | Some m => set_spo2 (Some (parseInt (group 1 m))) vitals
    | None => vitals
    end in
  let bpMatch := or_else (match_ input bp_pair) (match_ input bp_keyword) in
  let vitals :=
    match bpMatch with
    | Some m => set_systolic_bp (Some (parseInt (group 1 m))) vitals
    | None => vitals
    end in
  let hrMatch := or_else (match_ input hr_keyword) (match_ input hr_bpm) in
  let vitals :=
    match hrMatch with
    | Some m => set_heart_rate (Some (parseInt (group 1 m))) vitals
    | None => vitals
    end in
  let vitals :=
    if includes lower "unconscious" || includes lower "not waking"
       || includes lower "passed out"
    then set_consciousness (Some unconscious) vitals
    else if includes lower "confused" || includes lower "disoriented"
    then set_consciousness (Some confused) vitals
    else if includes lower "sleepy" || includes lower "drowsy"
    then set_consciousness (Some drowsy) vitals
    else set_consciousness (Some alert) vitals in
  vitals.

(** One property of [{ ...a, ...b }]: the one of [b] when [b] has it.
    (Properties hold values of their declared types: a remote record is a
    [Vitals].) *)
Definition spread_property {A} (a b : option A) : option A :=
  match b with
  | Some x => Some x
  | None => a
  end.

(** [{ ...localVitals, ...aiVitals }] *)
Definition spread (localVitals aiVitals : Vitals) : Vitals :=
  {| age := spread_property (age localVitals) (age aiVitals);
     systolic_bp := spread_property (systolic_bp localVitals) (systolic_bp aiVitals);
     heart_rate := spread_property (heart_rate localVitals) (heart_rate aiVitals);
     spo2 := spread_property (spo2 localVitals) (spo2 aiVitals);
     temperature := spread_property (temperature localVitals) (temperature aiVitals);
     consciousness := spread_property (consciousness localVitals) (consciousness aiVitals);
     doctor_assessment :=
       spread_property (doctor_assessment localVitals) (doctor_assessment aiVitals) |}.

(** [TriageEngine.calculate], with the call on record. *)
Definition engine (v : Vitals) : Run.M TriageResult :=
  Run.emit (EngineCall v) ;;; Run.ret (TriageEngine.calculate v).

Definition processEmergencyChat (ai : GoogleGenAI) (input : string)
  (lang : Language) : Run.M Reply :=
  let localVitals := localExtract input in
  Run.try_catch
    (Run.emit (ExtractionRequest input) ;;;
     aiVitals <- Run.lift (extractVitals ai input) ;;
     let finalVitals := spread localVitals aiVitals in
     triageResult <- engine finalVitals ;;
     Run.emit (ExplanationRequest (priority triageResult) (reasons triageResult)
                 input lang) ;;;
     content <- Run.lift (explain ai (priority triageResult)
                            (reasons triageResult) input lang) ;;
     Run.ret {| vitals := finalVitals;
                triage := triageResult;
                aiExplanation := explanation content;
                firstAid := firstAidText content;
                isOffline := false |})
    (Run.emit ConsoleWarn ;;;
     triageResult <- engine localVitals ;;
     Run.ret {| vitals := localVitals;
                triage := triageResult;
                aiExplanation :=
                  Some "LOCAL SAFETY ENGINE ACTIVE: Based on the information provided, we have calculated your triage priority locally.";
                firstAid :=
                  Some (match priority triageResult with
                        | CRITICAL =>
                            "Apply pressure to wounds. Keep airway clear. Wait for help."
                        | _ => "Stay calm. Monitor breathing and stay in a safe place."
                        end);
                isOffline := true |}).

(** One run from the empty log. *)
Definition run_chat (ai : GoogleGenAI) (input : string) (lang : Language)
  : outcome Reply * list Event :=
  processEmergencyChat ai input lang [].

(** The vitals the engine was called on, in the order of the calls. *)
Fixpoint engine_calls (log : list Event) : list Vitals :=
  match log with
  | [] => []
  | EngineCall v :: rest => v :: engine_calls rest
  | _ :: rest => engine_calls rest
  end.

End GeminiService.

Import TriageEngine GeminiService.

(** ** Records used as inputs below *)

Module Samples.

(** Oxygen 91, pulse 130, pressure 190, drowsy, 39 degrees: five scoring
    rules and no red flag. *)
Definition five_rules : Vitals :=
  {| age := None;
     systolic_bp := Some (Fin 190);
     heart_rate := Some (Fin 130);
     spo2 := Some (Fin 91);
     temperature := Some (Fin 39);
     consciousness := Some drowsy;
     doctor_assessment := None |}.

(** The same with age 65 and a moderate provider assessment: all seven. *)
Definition all_rules : Vitals :=
  {| age := Some (Fin 65);
     systolic_bp := Some (Fin 190);
     heart_rate := Some (Fin 130);
     spo2 := Some (Fin 91);
     temperature := Some (Fin 39);
     consciousness := Some drowsy;
     doctor_assessment := Some moderate |}.

(** [{ spo2: 0 }], [{ spo2: 85 }] and [{ spo2: 88, heart_rate: 140 }]. *)
Definition spo2_zero : Vitals := set_spo2 (Some (Fin 0)) empty_vitals.
Definition spo2_85 : Vitals := set_spo2 (Some (Fin 85)) empty_vitals.
Definition spo2_88 : Vitals :=
  set_heart_rate (Some (Fin 140)) (set_spo2 (Some (Fin 88)) empty_vitals).

(** [{ temperature: 39, age: 65 }] *)
Definition fever_at_65 : Vitals :=
  set_age (Some (Fin 65)) (set_temperature (Some (Fin 39)) empty_vitals).

(** [{ consciousness: 'unconscious', spo2: 98 }] *)
Definition unconscious_breathing : Vitals :=
  set_consciousness (Some unconscious) (set_spo2 (Some (Fin 98)) empty_vitals).

(** A remote model whose extraction finds an oxygen saturation of 85 and
    whose explanation request fails. *)
Definition explanation_down : GoogleGenAI :=
  {| extractVitals := fun _ => Returns spo2_85;
     explain := fun _ _ _ _ => Throws |}.

(** A remote model that is unreachable, and one that answers both requests. *)
Definition unreachable : GoogleGenAI :=
  {| extractVitals := fun _ => Throws;
     explain := fun _ _ _ _ => Throws |}.
Definition answering : GoogleGenAI :=
  {| extractVitals := fun _ => Returns fever_at_65;
     explain := fun _ _ _ _ =>
       Returns {| explanation := Some "Rest."; firstAidText := Some "Drink water." |} |}.

End Samples.

(** ** Predicates of the statements *)

(** Every category of an ABCDE status holds one of its labels. *)
Definition populated (s : ABCDEStatus) : Prop :=
  In (A_Airway s) ["AT RISK"; "OPEN"]
  /\ In (B_Breathing s) ["UNKNOWN"; "CRITICAL"; "LOW-NORMAL"; "ADEQUATE"]
  /\ In (C_Circulation s)
       ["UNKNOWN"; "SHOCK"; "LOW-NORMAL"; "HYPERTENSIVE"; "ADEQUATE"]
  /\ In (D_Disability s) ["UNCONSCIOUS"; "DROWSY"; "ALERT"]
  /\ In (E_Exposure s) ["UNKNOWN"; "CRITICAL"; "FEVER"; "NORMAL"].

(** What a numeric field holds, in the terms of the statements below.  A
    field is not read when it is missing, NaN or zero; otherwise it is
    compared as a number, the infinities included. *)
Definition not_read (x : value) : Prop :=
  x = None \/ x = Some NaN \/ exists q, x = Some (Fin q) /\ (q == 0)%Q.

Definition read_below (x : value) (b : Q) : Prop :=
  x = Some NegInfinity
  \/ exists q, x = Some (Fin q) /\ ~ (q == 0)%Q /\ (q < b)%Q.

Definition read_at_most (x : value) (b : Q) : Prop :=
  x = Some NegInfinity
  \/ exists q, x = Some (Fin q) /\ ~ (q == 0)%Q /\ (q <= b)%Q.

Definition read_at_least (x : value) (b : Q) : Prop :=
  x = Some PosInfinity
  \/ exists q, x = Some (Fin q) /\ ~ (q == 0)%Q /\ (b <= q)%Q.

Definition read_above (x : value) (b : Q) : Prop :=
  x = Some PosInfinity
  \/ exists q, x = Some (Fin q) /\ ~ (q == 0)%Q /\ (b < q)%Q.

(** The ABCDE status as the fields decide it, category by category: the
    label on the right under the condition on the left. *)
Definition airway_by_fields (v : Vitals) (s : ABCDEStatus) : Prop :=
  (consciousness v = Some unconscious -> A_Airway s = "AT RISK")
  /\ (consciousness v <> Some unconscious -> A_Airway s = "OPEN").

Definition breathing_by_fields (v : Vitals) (s : ABCDEStatus) : Prop :=
  (not_read (spo2 v) -> B_Breathing s = "UNKNOWN")
  /\ (read_below (spo2 v) 90 -> B_Breathing s = "CRITICAL")
  /\ (read_at_least (spo2 v) 90 -> read_below (spo2 v) 92 ->
      B_Breathing s = "LOW-NORMAL")
  /\ (read_at_least (spo2 v) 92 -> B_Breathing s = "ADEQUATE").

Definition circulation_by_fields (v : Vitals) (s : ABCDEStatus) : Prop :=
  (not_read (systolic_bp v) -> C_Circulation s = "UNKNOWN")
  /\ (read_below (systolic_bp v) 90 -> C_Circulation s = "SHOCK")
  /\ (read_at_least (systolic_bp v) 90 -> read_below (systolic_bp v) 100 ->
      C_Circulation s = "LOW-NORMAL")
  /\ (read_at_least (systolic_bp v) 100 -> read_at_most (systolic_bp v) 180 ->
      C_Circulation s = "ADEQUATE")
  /\ (read_above (systolic_bp v) 180 -> C_Circulation s = "HYPERTENSIVE").

Definition disability_by_fields (v : Vitals) (s : ABCDEStatus) : Prop :=
  (consciousness v = Some unconscious -> D_Disability s = "UNCONSCIOUS")
  /\ (consciousness v = Some drowsy -> D_Disability s = "DROWSY")
  /\ (consciousness v <> Some unconscious -> consciousness v <> Some drowsy ->
      D_Disability s = "ALERT").

Definition exposure_by_fields (v : Vitals) (s : ABCDEStatus) : Prop :=
  (not_read (temperature v) -> E_Exposure s = "UNKNOWN")
  /\ (read_below (temperature v) 35 -> E_Exposure s = "CRITICAL")
  /\ (read_at_least (temperature v) 35 -> read_at_most (temperature v) 38 ->
      E_Exposure s = "NORMAL")
  /\ (read_above (temperature v) 38 -> read_at_most (temperature v) 40 ->
      E_Exposure s = "FEVER")
  /\ (read_above (temperature v) 40 -> E_Exposure s = "CRITICAL").

(** Every numeric field is in one of the cases above. *)
Definition read_or_not (x : value) (b : Q) : Prop :=
  not_read x \/ read_below x b \/ read_at_least x b.

(** The four fields [computeABCDE] reads. *)
Definition same_abcde_inputs (a b : Vitals) : Prop :=
  consciousness a = consciousness b
  /\ spo2 a = spo2 b
  /\ systolic_bp a = systolic_bp b
  /\ temperature a = temperature b.

(** How a property [f] of [{ ...a, ...b }] relates to those of [a] and [b]. *)
Definition remote_overrides {A : Type} (f : Vitals -> option A) (a b : Vitals)
  : Prop :=
  (forall x, f b = Some x -> f (spread a b) = Some x)
  /\ (f b = None -> f (spread a b) = f a).

(** A numeric field that passes [vitals.f && vitals.f < 90]: present, not
    zero, below 90. *)
Definition critically_low (x : value) : Prop :=
  exists n, x = Some n /\ is_zero n = false /\ num_lt n (Fin 90) = true.

(** The four conditions of [checkRedFlags], on the fields. *)
Definition red_flag_condition (v : Vitals) : Prop :=
  critically_low (spo2 v)
  \/ consciousness v = Some unconscious
  \/ critically_low (systolic_bp v)
  \/ doctor_assessment v = Some critical.

(** What the scoring path keeps true of its two locals after at most [k]
    rules: every reason stands for 1 to 3 points. *)
Definition tally_invariant (k : nat) (t : tally) : Prop :=
  (snd t = [] <-> fst t = 0)
  /\ Z.of_nat (List.length (snd t)) <= fst t <= 3 * Z.of_nat (List.length (snd t))
  /\ (List.length (snd t) <= k)%nat.

(** Texts: every character in a class, a piece of another text. *)
Fixpoint all_chars (p : ascii -> bool) (s : string) : bool :=
  match s with
  | EmptyString => true
  | String c s' => p c && all_chars p s'
  end.

Definition suffix_of (s' s : string) : Prop :=
  exists a, s = (a ++ s')%string.

Definition part_of (c s : string) : Prop :=
  exists a b, s = (a ++ c ++ b)%string.

(** Two or three decimal digits: what [(\d{2,3})] captures. *)
Definition digits23 (c : string) : Prop :=
  all_chars RegExp.digit c = true /\ (2 <= String.length c <= 3)%nat.

(** A number the parser read: the value of two or three digits that stand
    in the input. *)
Definition read_from (input : string) (n : number) : Prop :=
  exists c, part_of c input /\ digits23 c /\ n = parseInt c.

(** Patterns whose groups are all [(\d{2,3})], and the least number of
    groups a match of the pattern closes. *)
Fixpoint digit_groups (r : RegExp.regex) : Prop :=
  match r with
  | RegExp.Group (RegExp.Repeat 2 3 p) => p = RegExp.digit
  | RegExp.Group _ => False
  | RegExp.Seq r1 r2 | RegExp.Alt r1 r2 => digit_groups r1 /\ digit_groups r2
  | _ => True
  end.

Fixpoint min_groups (r : RegExp.regex) : nat :=
  match r with
  | RegExp.Group _ => 1
  | RegExp.Seq r1 r2 => min_groups r1 + min_groups r2
  | RegExp.Alt r1 r2 => Nat.min (min_groups r1) (min_groups r2)
  | _ => 0
  end.

(** The text with its ASCII capitals in lower case. *)
Fixpoint lower_ascii (s : string) : string :=
  match s with
  | EmptyString => EmptyString
  | String c s' => String (RegExp.lower_char c) (lower_ascii s')
  end.

(** Classes and patterns that do not tell a letter from its lower case. *)
Definition case_blind (p : ascii -> bool) : Prop :=
  forall c, p (RegExp.lower_char c) = p c.

Fixpoint blind (r : RegExp.regex) : Prop :=
  match r with
  | RegExp.Empty | RegExp.Blanks => True
  | RegExp.Class p | RegExp.Star p | RegExp.Repeat _ _ p => case_blind p
  | RegExp.Seq r1 r2 | RegExp.Alt r1 r2 => blind r1 /\ blind r2
  | RegExp.Group r1 => blind r1
  end.

(** The reply the [catch] handler of [processEmergencyChat] builds, and the
    one the [try] block returns. *)
Definition offline_reply (localVitals : Vitals) : Reply :=
  {| vitals := localVitals;
     triage := calculate localVitals;
     aiExplanation :=
       Some "LOCAL SAFETY ENGINE ACTIVE: Based on the information provided, we have calculated your triage priority locally.";
     firstAid :=
       Some (match priority (calculate localVitals) with
             | CRITICAL =>
                 "Apply pressure to wounds. Keep airway clear. Wait for help."
             | _ => "Stay calm. Monitor breathing and stay in a safe place."
             end);
     isOffline := true |}.

Definition online_reply (finalVitals : Vitals) (content : Content) : Reply :=
  {| vitals := finalVitals;
     triage := calculate finalVitals;
     aiExplanation := explanation content;
     firstAid := firstAidText content;
     isOffline := false |}.

(** The explanation request of a run on [input] in [lang] whose merged
    vitals are [finalVitals]. *)
Definition explanation_request (finalVitals : Vitals) (input : string)
  (lang : Language) : Event :=
  ExplanationRequest (priority (calculate finalVitals))
    (reasons (calculate finalVitals)) input lang.

(** The three kinds of run of the supervisor, with their reply and log. *)
Inductive chat_run (ai : GoogleGenAI) (input : string) (lang : Language)
  : Reply -> list Event -> Prop :=
| extraction_failed :
    extractVitals ai input = Throws ->
    chat_run ai input lang (offline_reply (localExtract input))
      [ExtractionRequest input; ConsoleWarn; EngineCall (localExtract input)]
| explanation_failed (aiVitals : Vitals) :
    let finalVitals := spread (localExtract input) aiVitals in
    extractVitals ai input = Returns aiVitals ->
    explain ai (priority (calculate finalVitals))
      (reasons (calculate finalVitals)) input lang = Throws ->
    chat_run ai input lang (offline_reply (localExtract input))
      [ExtractionRequest input; EngineCall finalVitals;
       explanation_request finalVitals input lang;
       ConsoleWarn; EngineCall (localExtract input)]
| both_succeeded (aiVitals : Vitals) (content : Content) :
    let finalVitals := spread (localExtract input) aiVitals in
    extractVitals ai input = Returns aiVitals ->
    explain ai (priority (calculate finalVitals))
      (reasons (calculate finalVitals)) input lang = Returns content ->
    chat_run ai input lang (online_reply finalVitals content)
      [ExtractionRequest input; EngineCall finalVitals;
       explanation_request finalVitals input lang].

(** ** The engine: its two paths *)

Lemma nonempty_test (A : Type) (l : list A) :
  (0 <? Z.of_nat (List.length l)) = match l with [] => false | _ :: _ => true end.
Proof. destruct l; reflexivity. Qed.

Lemma calculate_scored (v : Vitals) :
  checkRedFlags v = [] ->
  calculate v =
    let '(score, reasons) := accumulate v in
    let priority := priority_of_score score in
    {| priority := priority;
       score := score;
       reasons := reasons;
       red_flags_detected := false;
       abcde_status := computeABCDE v;
       narrative_summary :=
         if (0 <? Z.of_nat (List.length reasons))
         then TriageLevel_value priority ++ ": "
                ++ String.concat ", " reasons ++ "."
         else TriageLevel_value priority
                ++ ": All vital signs within normal limits.";
       decision_pathway :=
         "NO RED FLAGS → SCORE " ++ show_score score ++ "/10 → "
           ++ TriageLevel_value priority ++ " PRIORITY" |}.
Proof. intros E. unfold calculate. rewrite E. reflexivity. Qed.

Lemma calculate_red_flag (v : Vitals) :
  checkRedFlags v <> [] ->
  calculate v =
    {| priority := CRITICAL;
       score := 10;
       reasons := checkRedFlags v;
       red_flags_detected := true;
       abcde_status := computeABCDE v;
       narrative_summary :=
         "CRITICAL: " ++ first_flag (checkRedFlags v)
           ++ ". Immediate emergency response required.";
       decision_pathway := "RED FLAG DETECTED → CRITICAL (scored 10/10)" |}.
Proof.
  intros N. unfold calculate. rewrite nonempty_test.
  destruct (checkRedFlags v); [contradiction | reflexivity].
Qed.

Lemma red_flags_dec (v : Vitals) :
  {checkRedFlags v = []} + {checkRedFlags v <> []}.
Proof. destruct (checkRedFlags v); [left | right]; congruence. Qed.

Lemma scored_fields (v : Vitals) :
  checkRedFlags v = [] ->
  score (calculate v) = fst (accumulate v)
  /\ reasons (calculate v) = snd (accumulate v)
  /\ priority (calculate v) = priority_of_score (fst (accumulate v))
  /\ red_flags_detected (calculate v) = false.
Proof.
  intros E. rewrite (calculate_scored v E).
  destruct (accumulate v) as [s rs]. simpl. auto.
Qed.

Lemma push_if_nonempty (c : bool) (msg : string) (flags : list string) :
  push_if c msg flags = [] -> c = false /\ flags = [].
Proof.
  unfold push_if. destruct c; intros E; [|auto].
  destruct flags; discriminate.
Qed.

(** No red flag: each of the four conditions of [checkRedFlags] is false. *)
Lemma no_red_flag (v : Vitals) :
  checkRedFlags v = [] ->
  (truthy (spo2 v) && (spo2 v <? 90)%js) = false
  /\ consciousness_is v unconscious = false
  /\ (truthy (systolic_bp v) && (systolic_bp v <? 90)%js) = false
  /\ doctor_assessment_is v critical = false.
Proof.
  unfold checkRedFlags. cbv zeta. intros E.
  apply push_if_nonempty in E. destruct E as [E4 E].
  apply push_if_nonempty in E. destruct E as [E3 E].
  apply push_if_nonempty in E. destruct E as [E2 E].
  apply push_if_nonempty in E. destruct E as [E1 _].
  auto.
Qed.

Lemma push_if_keeps (c : bool) (msg : string) (flags : list string) :
  flags <> [] -> push_if c msg flags <> [].
Proof. unfold push_if. destruct c, flags; simpl; congruence. Qed.

Lemma spo2_flag_fires (v : Vitals) :
  (truthy (spo2 v) && (spo2 v <? 90)%js) = true -> checkRedFlags v <> [].
Proof.
  intros C. unfold checkRedFlags. cbv zeta. rewrite C.
  do 3 apply push_if_keeps. discriminate.
Qed.

(** Case analysis on every test of the scoring path. *)
Ltac split_tests :=
  repeat match goal with
         | |- context [if ?c then _ else _] => destruct c eqn:?
         end.

Ltac open_rules :=
  unfold accumulate, rule_provider, rule_age, rule_exposure, rule_disability,
    rule_blood_pressure, rule_heart_rate, rule_breathing, rule, fire.

Lemma accumulate_bounds (v : Vitals) : 0 <= fst (accumulate v) <= 13.
Proof. open_rules. split_tests; simpl; lia. Qed.

Lemma lt_truthy (x b : number) :
  num_lt x b = true -> is_zero x = false -> truthy (Some x) = true.
Proof.
  destruct x; simpl; try congruence; try reflexivity.
  intros _ Z. rewrite Z. reflexivity.
Qed.

Lemma le_92_adequate (x : number) :
  num_le (Fin 92) x = true ->
  truthy (Some x) = true /\ num_lt x (Fin 90) = false /\ num_lt x (Fin 92) = false.
Proof.
  destruct x as [| | |q]; simpl; try discriminate; auto.
  intros H. unfold Qlt_bool.
  assert (L : (92 <= q)%Q) by (apply Qle_bool_iff; exact H).
  repeat split.
  - destruct (Qeq_bool q 0) eqn:E; [|reflexivity].
    apply Qeq_bool_eq in E. rewrite E in L. exfalso.
    revert L. unfold Qle. simpl. lia.
  - assert (L' : (90 <= q)%Q).
    { apply Qle_trans with (y := 92%Q); [|exact L]. unfold Qle; simpl; lia. }
    apply Qle_bool_iff in L'. rewrite L'. reflexivity.
  - rewrite H. reflexivity.
Qed.

Lemma zero_falsy (n : number) : is_zero n = true -> truthy (Some n) = false.
Proof.
  destruct n; simpl; try discriminate. intros ->. reflexivity.
Qed.

(** ** Properties of the decision engine *)

(** C1, as amended.  When [red_flags_detected] is true the score is 10 and
    the priority is CRITICAL.  (The converse does not hold: the scoring path
    reaches the same score and priority with no red flag.) *)
Theorem red_flag_forces_ten_critical (v : Vitals) :
  red_flags_detected (calculate v) = true ->
  score (calculate v) = 10 /\ priority (calculate v) = CRITICAL.
Proof.
  destruct (red_flags_dec v) as [E | N].
  - destruct (scored_fields v E) as (_ & _ & _ & F). rewrite F. discriminate.
  - rewrite (calculate_red_flag v N). simpl. auto.
Qed.

Lemma red_flag_forces_ten_critical_witness :
  red_flags_detected (calculate Samples.spo2_88) = true
  /\ score (calculate Samples.spo2_88) = 10
  /\ priority (calculate Samples.spo2_88) = CRITICAL.
Proof.
  split; [reflexivity |].
  apply (red_flag_forces_ten_critical Samples.spo2_88). reflexivity.
Defined.

(** C1, the claim as stated fails from right to left: on oxygen 91,
    pulse 130, pressure 190, drowsy, 39 degrees the score is 10 and the
    priority CRITICAL, and no red flag was detected. *)
Lemma score_ten_without_red_flag :
  score (calculate Samples.five_rules) = 10
  /\ priority (calculate Samples.five_rules) = CRITICAL
  /\ red_flags_detected (calculate Samples.five_rules) = false.
Proof. repeat split. Qed.

(** C2, as amended.  When [spo2] is present, is not zero and is below 90,
    the result is CRITICAL with score 10 and [red_flags_detected], whatever
    the other fields hold. *)
Theorem low_oxygen_dominates (v : Vitals) (x : number) :
  spo2 v = Some x ->
  is_zero x = false ->
  num_lt x (Fin 90) = true ->
  priority (calculate v) = CRITICAL
  /\ score (calculate v) = 10
  /\ red_flags_detected (calculate v) = true.
Proof.
  intros S Z L.
  assert (N : checkRedFlags v <> []).
  { apply spo2_flag_fires. rewrite S. unfold JS.lt. simpl ToNumber.
    rewrite L, (lt_truthy x _ L Z). reflexivity. }
  rewrite (calculate_red_flag v N). simpl. auto.
Qed.

Lemma low_oxygen_dominates_witness :
  spo2 Samples.spo2_88 = Some (Fin 88)
  /\ is_zero (Fin 88) = false
  /\ num_lt (Fin 88) (Fin 90) = true
  /\ priority (calculate Samples.spo2_88) = CRITICAL
  /\ score (calculate Samples.spo2_88) = 10
  /\ red_flags_detected (calculate Samples.spo2_88) = true.
Proof.
  do 3 (split; [reflexivity |]).
  apply (low_oxygen_dominates Samples.spo2_88 (Fin 88)); reflexivity.
Defined.

(** C2, the claim as stated fails at [{ spo2: 0 }]: the field is present
    and below 90, and the result is STABLE with score 0 and no red flag. *)
Lemma oxygen_zero_is_stable :
  spo2 Samples.spo2_zero = Some (Fin 0)
  /\ num_lt (Fin 0) (Fin 90) = true
  /\ priority (calculate Samples.spo2_zero) = STABLE
  /\ score (calculate Samples.spo2_zero) = 0
  /\ red_flags_detected (calculate Samples.spo2_zero) = false.
Proof. repeat split. Qed.

(** C6.  With no red flag, the priority is the step function of the score:
    STABLE below 4, URGENT from 4 below 7, CRITICAL from 7. *)
Theorem priority_steps_with_score (v : Vitals) :
  checkRedFlags v = [] ->
  (score (calculate v) < 4 -> priority (calculate v) = STABLE)
  /\ (4 <= score (calculate v) < 7 -> priority (calculate v) = URGENT)
  /\ (7 <= score (calculate v) -> priority (calculate v) = CRITICAL).
Proof.
  intros E. destruct (scored_fields v E) as (S & _ & P & _).
  rewrite S, P. unfold priority_of_score.
  repeat split; intros H;
    destruct (fst (accumulate v) >=? 7) eqn:G7;
    destruct (fst (accumulate v) >=? 4) eqn:G4; try reflexivity; lia.
Qed.

Lemma priority_steps_with_score_witness :
  checkRedFlags Samples.fever_at_65 = []
  /\ score (calculate Samples.fever_at_65) = 2
  /\ priority (calculate Samples.fever_at_65) = STABLE.
Proof.
  split; [reflexivity |]. split; [reflexivity |].
  destruct (priority_steps_with_score Samples.fever_at_65 eq_refl) as (S & _).
  apply S. vm_compute. reflexivity.
Defined.

(** C7.  With no red flag the score is at most 13, and 13 is the score of
    a record with no red flag: the sum is not clamped to 10. *)
Theorem score_at_most_13_attained :
  (forall v : Vitals, checkRedFlags v = [] -> score (calculate v) <= 13)
  /\ (exists v : Vitals, checkRedFlags v = [] /\ score (calculate v) = 13).
Proof.
  split.
  - intros v E. destruct (scored_fields v E) as (S & _). rewrite S.
    apply accumulate_bounds.
  - exists Samples.all_rules. split; reflexivity.
Qed.

(** C10.  The reasons never hold the message of the low-normal blood
    pressure rule: a pressure in [80, 90) is a red flag, and the red-flag
    path returns before the rule is reached. *)
Theorem low_normal_pressure_never_reported (v : Vitals) :
  ~ In "Blood pressure in low-normal range (80-90 mmHg)" (reasons (calculate v)).
Proof.
  destruct (red_flags_dec v) as [E | N].
  - destruct (scored_fields v E) as (_ & R & _). rewrite R.
    destruct (no_red_flag v E) as (_ & _ & B & _).
    open_rules.
    destruct (truthy (systolic_bp v)) eqn:T; simpl in B.
    + rewrite B, andb_false_r.
      split_tests; simpl; intuition discriminate.
    + split_tests; simpl; intuition discriminate.
  - rewrite (calculate_red_flag v N). simpl.
    unfold checkRedFlags, push_if.
    split_tests; simpl; intuition discriminate.
Qed.

Lemma abcde_of_calculate (v : Vitals) :
  abcde_status (calculate v) = computeABCDE v.
Proof.
  destruct (red_flags_dec v) as [E | N].
  - rewrite (calculate_scored v E). destruct (accumulate v). reflexivity.
  - rewrite (calculate_red_flag v N). reflexivity.
Qed.

Lemma computeABCDE_populated (v : Vitals) : populated (computeABCDE v).
Proof.
  unfold populated, computeABCDE. cbn [A_Airway B_Breathing C_Circulation
    D_Disability E_Exposure].
  repeat split; split_tests; simpl; tauto.
Qed.

Lemma computeABCDE_inputs (a b : Vitals) :
  same_abcde_inputs a b -> computeABCDE a = computeABCDE b.
Proof.
  intros (C & S & B & T).
  unfold computeABCDE, consciousness_is. rewrite C, S, B, T. reflexivity.
Qed.

(** Numeric fields, case by case: what the tests of the engine answer. *)
Lemma nonzero_truthy (q : Q) : ~ (q == 0)%Q -> truthy (Some (Fin q)) = true.
Proof.
  intros N. cbn [truthy]. destruct (Qeq_bool q 0) eqn:E; [| reflexivity].
  apply Qeq_bool_eq in E. contradiction.
Qed.

Lemma Qlt_bool_true (x y : Q) : (x < y)%Q -> Qlt_bool x y = true.
Proof.
  intros L. unfold Qlt_bool. destruct (Qle_bool y x) eqn:B; [| reflexivity].
  apply Qle_bool_iff in B. destruct (Qlt_not_le _ _ L B).
Qed.

Lemma Qlt_bool_false (x y : Q) : (y <= x)%Q -> Qlt_bool x y = false.
Proof.
  intros L. unfold Qlt_bool. apply Qle_bool_iff in L. rewrite L. reflexivity.
Qed.

Lemma not_read_falsy (x : value) : not_read x -> truthy x = false.
Proof.
  intros [-> | [-> | (q & -> & Z)]]; try reflexivity.
  cbn [truthy]. apply Qeq_bool_iff in Z. rewrite Z. reflexivity.
Qed.

Lemma read_below_tests (x : value) (b c : Q) :
  read_below x b -> (b <= c)%Q ->
  truthy x = true /\ JS.lt x c = true.
Proof.
  intros [-> | (q & -> & N & L)] B; [split; reflexivity |].
  split; [apply nonzero_truthy; exact N |].
  unfold JS.lt. cbn [ToNumber num_lt]. apply Qlt_bool_true.
  apply Qlt_le_trans with (y := b); assumption.
Qed.

Lemma read_at_least_tests (x : value) (b c : Q) :
  read_at_least x b -> (c <= b)%Q ->
  truthy x = true /\ JS.lt x c = false.
Proof.
  intros [-> | (q & -> & N & L)] B; [split; reflexivity |].
  split; [apply nonzero_truthy; exact N |].
  unfold JS.lt. cbn [ToNumber num_lt]. apply Qlt_bool_false.
  apply Qle_trans with (y := b); assumption.
Qed.

Lemma read_above_tests (x : value) (b c : Q) :
  read_above x b -> (c <= b)%Q ->
  truthy x = true /\ JS.gt x c = true /\ JS.lt x c = false.
Proof.
  intros [-> | (q & -> & N & L)] B; [repeat split |].
  split; [apply nonzero_truthy; exact N |].
  unfold JS.gt, JS.lt. cbn [ToNumber num_lt]. split.
  - apply Qlt_bool_true. apply Qle_lt_trans with (y := b); assumption.
  - apply Qlt_bool_false. apply Qlt_le_weak.
    apply Qle_lt_trans with (y := b); assumption.
Qed.

Lemma read_at_most_tests (x : value) (b c : Q) :
  read_at_most x b -> (b <= c)%Q -> JS.gt x c = false.
Proof.
  intros [-> | (q & -> & N & L)] B; [reflexivity |].
  unfold JS.gt. cbn [ToNumber num_lt]. apply Qlt_bool_false.
  apply Qle_trans with (y := b); assumption.
Qed.

(** The cases leave no value out. *)
Lemma every_value_read_or_not (x : value) (b : Q) : read_or_not x b.
Proof.
  unfold read_or_not, not_read, read_below, read_at_least.
  destruct x as [[| | | q] |]; auto.
  destruct (Qeq_dec q 0) as [Z | N]; [left; eauto |].
  right. destruct (Qlt_le_dec q b); [left | right]; right; eauto.
Qed.

Ltac compare_literals := unfold Qle; simpl; lia.

Lemma airway_of_fields (v : Vitals) : airway_by_fields v (computeABCDE v).
Proof.
  unfold airway_by_fields, computeABCDE, consciousness_is. cbn [A_Airway].
  destruct (consciousness v) as [[] |]; split; congruence.
Qed.

Lemma disability_of_fields (v : Vitals) :
  disability_by_fields v (computeABCDE v).
Proof.
  unfold disability_by_fields, computeABCDE, consciousness_is.
  cbn [D_Disability].
  destruct (consciousness v) as [[] |]; repeat split; congruence.
Qed.

Lemma breathing_of_fields (v : Vitals) :
  breathing_by_fields v (computeABCDE v).
Proof.
  unfold breathing_by_fields, computeABCDE. cbn [B_Breathing].
  repeat match goal with |- _ /\ _ => split end.
  - intros U. rewrite (not_read_falsy _ U). reflexivity.
  - intros B.
    destruct (read_below_tests _ 90 90 B ltac:(compare_literals)) as (-> & ->).
    reflexivity.
  - intros L B.
    destruct (read_at_least_tests _ 90 90 L ltac:(compare_literals))
      as (-> & ->).
    destruct (read_below_tests _ 92 92 B ltac:(compare_literals)) as (_ & ->).
    reflexivity.
  - intros L.
    destruct (read_at_least_tests _ 92 90 L ltac:(compare_literals))
      as (-> & ->).
    destruct (read_at_least_tests _ 92 92 L ltac:(compare_literals))
      as (_ & ->).
    reflexivity.
Qed.

Lemma circulation_of_fields (v : Vitals) :
  circulation_by_fields v (computeABCDE v).
Proof.
  unfold circulation_by_fields, computeABCDE. cbn [C_Circulation].
  repeat match goal with |- _ /\ _ => split end.
  - intros U. rewrite (not_read_falsy _ U). reflexivity.
  - intros B.
    destruct (read_below_tests _ 90 90 B ltac:(compare_literals)) as (-> & ->).
    reflexivity.
  - intros L B.
    destruct (read_at_least_tests _ 90 90 L ltac:(compare_literals))
      as (-> & ->).
    destruct (read_below_tests _ 100 100 B ltac:(compare_literals))
      as (_ & ->).
    reflexivity.
  - intros L M.
    destruct (read_at_least_tests _ 100 90 L ltac:(compare_literals))
      as (-> & ->).
    destruct (read_at_least_tests _ 100 100 L ltac:(compare_literals))
      as (_ & ->).
    rewrite (read_at_most_tests _ 180 180 M ltac:(compare_literals)).
    reflexivity.
  - intros A.
    destruct (read_above_tests _ 180 90 A ltac:(compare_literals))
      as (-> & _ & ->).
    destruct (read_above_tests _ 180 100 A ltac:(compare_literals))
      as (_ & _ & ->).
    destruct (read_above_tests _ 180 180 A ltac:(compare_literals))
      as (_ & -> & _).
    reflexivity.
Qed.

Lemma exposure_of_fields (v : Vitals) :
  exposure_by_fields v (computeABCDE v).
Proof.
  unfold exposure_by_fields, computeABCDE. cbn [E_Exposure].
  repeat match goal with |- _ /\ _ => split end.
  - intros U. rewrite (not_read_falsy _ U). reflexivity.
  - intros B.
    destruct (read_below_tests _ 35 35 B ltac:(compare_literals)) as (-> & ->).
    rewrite orb_true_r. reflexivity.
  - intros L M.
    destruct (read_at_least_tests _ 35 35 L ltac:(compare_literals))
      as (-> & ->).
    rewrite (read_at_most_tests _ 38 40 M ltac:(compare_literals)).
    rewrite (read_at_most_tests _ 38 38 M ltac:(compare_literals)).
    reflexivity.
  - intros A M.
    destruct (read_above_tests _ 38 35 A ltac:(compare_literals))
      as (-> & _ & ->).
    destruct (read_above_tests _ 38 38 A ltac:(compare_literals))
      as (_ & -> & _).
    rewrite (read_at_most_tests _ 40 40 M ltac:(compare_literals)).
    reflexivity.
  - intros A.
    destruct (read_above_tests _ 40 40 A ltac:(compare_literals))
      as (-> & -> & _).
    reflexivity.
Qed.

(** C8.  On either path the ABCDE status of the result is decided by the
    fields alone, category by category.  Airway is AT RISK for an
    unconscious patient and OPEN otherwise.  Breathing is UNKNOWN when the
    oxygen saturation is not read (missing, NaN or zero), CRITICAL below
    90, LOW-NORMAL from 90 below 92, ADEQUATE from 92.  Circulation is
    UNKNOWN when the pressure is not read, SHOCK below 90, LOW-NORMAL from
    90 below 100, ADEQUATE from 100 to 180, HYPERTENSIVE above 180.
    Disability is UNCONSCIOUS, DROWSY, or ALERT for every other
    consciousness (confused included).  Exposure is UNKNOWN when the
    temperature is not read, CRITICAL below 35 or above 40, NORMAL from 35
    to 38, FEVER above 38 up to 40.  So every category holds one of its
    labels, two records that agree on consciousness, oxygen, pressure and
    temperature have the same status whichever path each takes, and an
    unconscious patient with oxygen at 92 or more, who is on the red-flag
    path, has Airway AT RISK and Breathing ADEQUATE. *)
Theorem abcde_independent_of_path (v : Vitals) :
  abcde_status (calculate v) = computeABCDE v
  /\ populated (abcde_status (calculate v))
  /\ (forall v', same_abcde_inputs v v' ->
       abcde_status (calculate v') = abcde_status (calculate v))
  /\ (forall x, consciousness v = Some unconscious ->
       spo2 v = Some x -> num_le (Fin 92) x = true ->
       checkRedFlags v <> []
       /\ A_Airway (abcde_status (calculate v)) = "AT RISK"
       /\ B_Breathing (abcde_status (calculate v)) = "ADEQUATE")
  /\ (consciousness v = Some confused ->
       D_Disability (abcde_status (calculate v)) = "ALERT")
  /\ airway_by_fields v (abcde_status (calculate v))
  /\ breathing_by_fields v (abcde_status (calculate v))
  /\ circulation_by_fields v (abcde_status (calculate v))
  /\ disability_by_fields v (abcde_status (calculate v))
  /\ exposure_by_fields v (abcde_status (calculate v)).
Proof.
  rewrite abcde_of_calculate.
  split; [reflexivity |].
  split; [apply computeABCDE_populated |].
  split; [| split; [| split]].
  - intros v' S. rewrite abcde_of_calculate. symmetry.
    apply computeABCDE_inputs. exact S.
  - intros x C S L.
    destruct (le_92_adequate x L) as (T & L90 & L92).
    split; [| split].
    + unfold checkRedFlags, consciousness_is. rewrite C. cbv zeta.
      apply push_if_keeps, push_if_keeps. unfold push_if at 1.
      destruct (push_if _ _ _); discriminate.
    + unfold computeABCDE, consciousness_is. rewrite C. reflexivity.
    + unfold computeABCDE. cbn [B_Breathing]. unfold JS.lt. rewrite S.
      cbn [ToNumber]. rewrite T, L90, L92. reflexivity.
  - intros C. unfold computeABCDE, consciousness_is. rewrite C. reflexivity.
  - auto using airway_of_fields, breathing_of_fields, circulation_of_fields,
      disability_of_fields, exposure_of_fields.
Qed.

Lemma abcde_independent_of_path_witness :
  checkRedFlags Samples.unconscious_breathing <> []
  /\ A_Airway (abcde_status (calculate Samples.unconscious_breathing)) = "AT RISK"
  /\ B_Breathing (abcde_status (calculate Samples.unconscious_breathing))
     = "ADEQUATE".
Proof.
  destruct (abcde_independent_of_path Samples.unconscious_breathing)
    as (_ & _ & _ & U & _).
  apply (U (Fin 98)); reflexivity.
Defined.

Lemma calculate_ext (a b : Vitals) :
  checkRedFlags a = checkRedFlags b ->
  accumulate a = accumulate b ->
  computeABCDE a = computeABCDE b ->
  calculate a = calculate b.
Proof. unfold calculate. intros -> -> ->. reflexivity. Qed.

(** A field that holds zero passes none of the tests of the engine. *)
Ltac zero_field Z :=
  unfold checkRedFlags, computeABCDE, consciousness_is, doctor_assessment_is;
  open_rules;
  cbn [age systolic_bp heart_rate spo2 temperature consciousness
       doctor_assessment set_age set_systolic_bp set_heart_rate set_spo2
       set_temperature];
  rewrite ?(zero_falsy _ Z); reflexivity.

(** C9.  A numeric field that holds zero is read as a missing one: the
    result is the one of the record without the field.  In particular a
    zero oxygen saturation or pressure raises no red flag, and Breathing,
    Circulation and Exposure are UNKNOWN on a zero oxygen saturation,
    pressure and temperature. *)
Theorem zero_reads_as_absent (v : Vitals) (n : number) :
  is_zero n = true ->
  calculate (set_spo2 (Some n) v) = calculate (set_spo2 None v)
  /\ calculate (set_systolic_bp (Some n) v) = calculate (set_systolic_bp None v)
  /\ calculate (set_heart_rate (Some n) v) = calculate (set_heart_rate None v)
  /\ calculate (set_temperature (Some n) v) = calculate (set_temperature None v)
  /\ calculate (set_age (Some n) v) = calculate (set_age None v)
  /\ ~ In "Oxygen saturation critically low (<90%)"
         (checkRedFlags (set_spo2 (Some n) v))
  /\ ~ In "Blood pressure critically low (<90 mmHg)"
         (checkRedFlags (set_systolic_bp (Some n) v))
  /\ B_Breathing (abcde_status (calculate (set_spo2 (Some n) v))) = "UNKNOWN"
  /\ C_Circulation (abcde_status (calculate (set_systolic_bp (Some n) v)))
     = "UNKNOWN"
  /\ E_Exposure (abcde_status (calculate (set_temperature (Some n) v)))
     = "UNKNOWN".
Proof.
  intros Z.
  repeat match goal with |- _ /\ _ => split end;
    try (apply calculate_ext; zero_field Z);
    try (rewrite abcde_of_calculate; zero_field Z).
  - unfold checkRedFlags, push_if.
    cbn [spo2 set_spo2]. rewrite (zero_falsy _ Z). cbn [andb].
    split_tests; simpl; intuition discriminate.
  - unfold checkRedFlags, push_if.
    cbn [systolic_bp set_systolic_bp]. rewrite (zero_falsy _ Z). cbn [andb].
    split_tests; simpl; intuition discriminate.
Qed.

Lemma zero_reads_as_absent_witness :
  is_zero (Fin 0) = true
  /\ calculate (set_spo2 (Some (Fin 0)) Samples.fever_at_65)
     = calculate (set_spo2 None Samples.fever_at_65)
  /\ E_Exposure (abcde_status
       (calculate (set_temperature (Some (Fin 0)) Samples.fever_at_65)))
     = "UNKNOWN".
Proof.
  split; [reflexivity |].
  destruct (zero_reads_as_absent Samples.fever_at_65 (Fin 0) eq_refl)
    as (S & _ & _ & _ & _ & _ & _ & _ & _ & E).
  split; [exact S | exact E].
Defined.

(** ** The supervisor: its three kinds of run *)

Ltac step_chat :=
  unfold run_chat, processEmergencyChat, engine, Run.try_catch, Run.bind,
    Run.emit, Run.lift, Run.ret.

(** The extraction request fails: the engine runs once, in the handler, on
    the vitals of the local parser. *)
Lemma chat_extraction_fails (ai : GoogleGenAI) (input : string) (lang : Language) :
  extractVitals ai input = Throws ->
  exists r,
    run_chat ai input lang
    = (Returns r,
       [ExtractionRequest input; ConsoleWarn; EngineCall (localExtract input)])
    /\ vitals r = localExtract input
    /\ triage r = calculate (localExtract input)
    /\ isOffline r = true.
Proof.
  intros X. step_chat. rewrite X. cbn [app].
  eexists. split; [reflexivity |]. cbn [vitals triage isOffline]. auto.
Qed.

(** Both requests succeed: the engine runs once, on the merged vitals. *)
Lemma chat_both_succeed (ai : GoogleGenAI) (input : string) (lang : Language)
  (aiVitals : Vitals) (content : Content) :
  let finalVitals := spread (localExtract input) aiVitals in
  extractVitals ai input = Returns aiVitals ->
  explain ai (priority (calculate finalVitals)) (reasons (calculate finalVitals))
    input lang = Returns content ->
  exists r,
    run_chat ai input lang
    = (Returns r,
       [ExtractionRequest input; EngineCall finalVitals;
        ExplanationRequest (priority (calculate finalVitals))
          (reasons (calculate finalVitals)) input lang])
    /\ vitals r = finalVitals
    /\ triage r = calculate finalVitals
    /\ aiExplanation r = explanation content
    /\ firstAid r = firstAidText content
    /\ isOffline r = false.
Proof.
  intros finalVitals X E. step_chat. rewrite X. cbn [app].
  fold finalVitals. rewrite E.
  eexists. split; [reflexivity |].
  cbn [vitals triage aiExplanation firstAid isOffline]. auto 6.
Qed.

(** The extraction succeeds and the explanation request fails: the engine
    has run on the merged vitals, and the handler runs it again on the local
    ones, which are the ones of the reply. *)
Lemma chat_explanation_fails (ai : GoogleGenAI) (input : string) (lang : Language)
  (aiVitals : Vitals) :
  let finalVitals := spread (localExtract input) aiVitals in
  extractVitals ai input = Returns aiVitals ->
  explain ai (priority (calculate finalVitals)) (reasons (calculate finalVitals))
    input lang = Throws ->
  exists r,
    run_chat ai input lang
    = (Returns r,
       [ExtractionRequest input; EngineCall finalVitals;
        ExplanationRequest (priority (calculate finalVitals))
          (reasons (calculate finalVitals)) input lang;
        ConsoleWarn; EngineCall (localExtract input)])
    /\ vitals r = localExtract input
    /\ triage r = calculate (localExtract input)
    /\ isOffline r = true.
Proof.
  intros finalVitals X E. step_chat. rewrite X. cbn [app].
  fold finalVitals. rewrite E.
  eexists. split; [reflexivity |]. cbn [vitals triage isOffline]. auto.
Qed.

(** C3, as amended.  Every run returns a reply whose triage is the engine's
    result on the vitals of the reply.  When the extraction request fails the
    engine is called once, on the local vitals; when both requests succeed
    it is called once, on the merged vitals; when the extraction succeeds
    and the explanation request fails it is called twice, on the merged and
    then on the local vitals, and the reply is the one of the local
    vitals. *)
Theorem engine_calls_by_outcome (ai : GoogleGenAI) (input : string)
  (lang : Language) :
  exists r log,
    run_chat ai input lang = (Returns r, log)
    /\ triage r = calculate (vitals r)
    /\ match extractVitals ai input with
       | Throws =>
           engine_calls log = [localExtract input]
           /\ vitals r = localExtract input
           /\ isOffline r = true
       | Returns aiVitals =>
           let finalVitals := spread (localExtract input) aiVitals in
           match explain ai (priority (calculate finalVitals))
                   (reasons (calculate finalVitals)) input lang with
           | Returns _ =>
               engine_calls log = [finalVitals]
               /\ vitals r = finalVitals
               /\ isOffline r = false
           | Throws =>
               engine_calls log = [finalVitals; localExtract input]
               /\ vitals r = localExtract input
               /\ isOffline r = true
           end
       end.
Proof.
  destruct (extractVitals ai input) as [| aiVitals] eqn:X.
  - destruct (chat_extraction_fails ai input lang X) as (r & R & V & T & O).
    exists r. eexists. split; [exact R |].
    rewrite V, T, O. cbn [engine_calls]. auto.
  - cbv zeta.
    destruct (explain ai _ _ input lang) as [| content] eqn:E.
    + destruct (chat_explanation_fails ai input lang aiVitals X E)
        as (r & R & V & T & O).
      exists r. eexists. split; [exact R |].
      rewrite V, T, O. cbn [engine_calls]. auto.
    + destruct (chat_both_succeed ai input lang aiVitals content X E)
        as (r & R & V & T & _ & _ & O).
      exists r. eexists. split; [exact R |].
      rewrite V, T, O. cbn [engine_calls]. auto.
Qed.

(** C3, the claim as stated fails on a run whose extraction finds an
    oxygen saturation of 85 and whose explanation request fails: the engine
    is called twice, and the priority of the reply is the STABLE of the local
    vitals, not the CRITICAL of the merged ones. *)
Lemma explanation_failure_changes_vitals :
  let input := "I feel a bit off" in
  let merged := spread (localExtract input) Samples.spo2_85 in
  extractVitals Samples.explanation_down input = Returns Samples.spo2_85
  /\ engine_calls (snd (run_chat Samples.explanation_down input en))
     = [merged; localExtract input]
  /\ priority (calculate merged) = CRITICAL
  /\ match fst (run_chat Samples.explanation_down input en) with
     | Returns r => priority (triage r) = STABLE /\ vitals r = localExtract input
     | Throws => False
     end.
Proof. cbv zeta. repeat split. Qed.

(** ** The local parser and the merge *)

(** C4, as amended.  On "temperature 39, age 65" the local parser, which
    has no pattern for a temperature or an age, yields the record that
    holds only [consciousness = alert]; the engine gives it score 0 and
    STABLE.  On that record merged with a remote [{ temperature: 39,
    age: 65 }] the temperature rule and the age rule fire, the score is 2
    and the priority STABLE.  The supervisor gives the first result when the
    remote model is unreachable and the second when it answers with these
    two fields. *)
Theorem fever_at_65_pipeline :
  let input := "temperature 39, age 65" in
  localExtract input = set_consciousness (Some alert) empty_vitals
  /\ score (calculate (localExtract input)) = 0
  /\ reasons (calculate (localExtract input)) = []
  /\ priority (calculate (localExtract input)) = STABLE
  /\ reasons (calculate (spread (localExtract input) Samples.fever_at_65))
     = ["Body temperature elevated above 38°C"; "Patient age over 60 years"]
  /\ score (calculate (spread (localExtract input) Samples.fever_at_65)) = 2
  /\ priority (calculate (spread (localExtract input) Samples.fever_at_65))
     = STABLE
  /\ match fst (run_chat Samples.unreachable input en) with
     | Returns r => score (triage r) = 0 /\ priority (triage r) = STABLE
     | Throws => False
     end
  /\ match fst (run_chat Samples.answering input en) with
     | Returns r => score (triage r) = 2 /\ priority (triage r) = STABLE
     | Throws => False
     end.
Proof. cbv zeta. repeat split; vm_compute; reflexivity. Qed.

(** C4, the claim as stated fails: on "temperature 39, age 65" the parser
    extracts neither field, no rule fires and the score is 0, not 2. *)
Lemma local_parser_misses_fever_and_age :
  temperature (localExtract "temperature 39, age 65") = None
  /\ age (localExtract "temperature 39, age 65") = None
  /\ reasons (calculate (localExtract "temperature 39, age 65")) = []
  /\ score (calculate (localExtract "temperature 39, age 65")) = 0.
Proof. repeat split; vm_compute; reflexivity. Qed.

Lemma spread_overrides {A : Type} (f : Vitals -> option A) (a b : Vitals) :
  f (spread a b) = spread_property (f a) (f b) -> remote_overrides f a b.
Proof.
  intros E. unfold remote_overrides. rewrite E. unfold spread_property.
  split.
  - intros x ->. reflexivity.
  - intros ->. reflexivity.
Qed.

Lemma spread_empty (a : Vitals) : spread a empty_vitals = a.
Proof. destruct a. reflexivity. Qed.

(** C5.  The merge is field by field: a field of the remote record
    overrides the local one, a field the remote record lacks keeps its local
    value, and with nothing from the remote side (an empty remote record, or
    a failed extraction request) the vitals are the local ones unchanged. *)
Theorem merge_remote_overrides_local (localVitals aiVitals : Vitals) :
  remote_overrides age localVitals aiVitals
  /\ remote_overrides systolic_bp localVitals aiVitals
  /\ remote_overrides heart_rate localVitals aiVitals
  /\ remote_overrides spo2 localVitals aiVitals
  /\ remote_overrides temperature localVitals aiVitals
  /\ remote_overrides consciousness localVitals aiVitals
  /\ remote_overrides doctor_assessment localVitals aiVitals
  /\ spread localVitals empty_vitals = localVitals
  /\ (forall ai input lang,
        extractVitals ai input = Throws ->
        exists r log,
          run_chat ai input lang = (Returns r, log)
          /\ vitals r = localExtract input).
Proof.
  repeat match goal with
         | |- remote_overrides _ _ _ /\ _ =>
             split; [apply spread_overrides; reflexivity |]
         end.
  split; [apply spread_empty |].
  intros ai input lang X.
  destruct (chat_extraction_fails ai input lang X) as (r & R & V & _).
  exists r. eexists. split; [exact R | exact V].
Qed.

Lemma merge_remote_overrides_local_witness :
  spo2 (spread (set_spo2 (Some (Fin 95)) empty_vitals)
          (set_spo2 (Some (Fin 88)) empty_vitals)) = Some (Fin 88)
  /\ spo2 (spread (set_spo2 (Some (Fin 95)) empty_vitals)
             (set_heart_rate (Some (Fin 70)) empty_vitals)) = Some (Fin 95)
  /\ exists r log,
       run_chat Samples.unreachable "spo2 85, hr 130" en = (Returns r, log)
       /\ vitals r = localExtract "spo2 85, hr 130".
Proof.
  split; [| split].
  - destruct (merge_remote_overrides_local
                (set_spo2 (Some (Fin 95)) empty_vitals)
                (set_spo2 (Some (Fin 88)) empty_vitals))
      as (_ & _ & _ & (O & _) & _).
    apply O. reflexivity.
  - destruct (merge_remote_overrides_local
                (set_spo2 (Some (Fin 95)) empty_vitals)
                (set_heart_rate (Some (Fin 70)) empty_vitals))
      as (_ & _ & _ & (_ & K) & _).
    apply K. reflexivity.
  - destruct (merge_remote_overrides_local empty_vitals empty_vitals)
      as (_ & _ & _ & _ & _ & _ & _ & _ & F).
    apply (F Samples.unreachable "spo2 85, hr 130" en). reflexivity.
Defined.

(** ** Further properties of the decision engine *)

Lemma truthy_not_zero (n : number) :
  truthy (Some n) = true -> is_zero n = false.
Proof.
  destruct n; simpl; try reflexivity.
  destruct (Qeq_bool q 0); [discriminate | reflexivity].
Qed.

Lemma guard_critically_low (x : value) :
  (truthy x && (x <? 90)%js) = true <-> critically_low x.
Proof.
  unfold critically_low, JS.lt. split.
  - intros H. apply andb_prop in H. destruct H as [T L].
    destruct x as [n |]; [| discriminate].
    exists n. cbn [ToNumber] in L. auto using truthy_not_zero.
  - intros (n & -> & Z & L). cbn [ToNumber].
    rewrite L, (lt_truthy n _ L Z). reflexivity.
Qed.

Lemma is_unconscious (v : Vitals) :
  consciousness_is v unconscious = true <-> consciousness v = Some unconscious.
Proof.
  unfold consciousness_is.
  destruct (consciousness v) as [[] |]; split; congruence.
Qed.

Lemma is_critical (v : Vitals) :
  doctor_assessment_is v critical = true <-> doctor_assessment v = Some critical.
Proof.
  unfold doctor_assessment_is.
  destruct (doctor_assessment v) as [[] |]; split; congruence.
Qed.

Lemma red_flags_iff (v : Vitals) :
  checkRedFlags v <> [] <-> red_flag_condition v.
Proof.
  unfold red_flag_condition.
  rewrite <- !guard_critically_low, <- is_unconscious, <- is_critical.
  split.
  - intros N.
    destruct (truthy (spo2 v) && (spo2 v <? 90)%js) eqn:C1; [auto |].
    destruct (consciousness_is v unconscious) eqn:C2; [auto |].
    destruct (truthy (systolic_bp v) && (systolic_bp v <? 90)%js) eqn:C3;
      [auto |].
    destruct (doctor_assessment_is v critical) eqn:C4; [auto |].
    exfalso. apply N. unfold checkRedFlags. rewrite C1, C2, C3, C4.
    reflexivity.
  - intros H E. destruct (no_red_flag v E) as (C1 & C2 & C3 & C4).
    rewrite C1, C2, C3, C4 in H. intuition discriminate.
Qed.

(** X1.  The engine detects a red flag exactly when oxygen saturation or
    systolic pressure is present, not zero and below 90, the patient is
    unconscious, or the provider's assessment is critical; the result is
    then CRITICAL with score 10 and its reasons are the red flags. *)
Theorem red_flag_exactly_on_condition (v : Vitals) :
  (red_flags_detected (calculate v) = true <-> red_flag_condition v)
  /\ (red_flag_condition v ->
      priority (calculate v) = CRITICAL
      /\ score (calculate v) = 10
      /\ reasons (calculate v) = checkRedFlags v
      /\ reasons (calculate v) <> []).
Proof.
  rewrite <- red_flags_iff. split; [split |].
  - intros D E. destruct (scored_fields v E) as (_ & _ & _ & F).
    congruence.
  - intros N. rewrite (calculate_red_flag v N). reflexivity.
  - intros N. rewrite (calculate_red_flag v N). simpl. auto.
Qed.

Lemma red_flag_exactly_on_condition_witness :
  red_flag_condition Samples.unconscious_breathing
  /\ priority (calculate Samples.unconscious_breathing) = CRITICAL
  /\ score (calculate Samples.unconscious_breathing) = 10.
Proof.
  assert (C : red_flag_condition Samples.unconscious_breathing).
  { right. left. reflexivity. }
  split; [exact C |].
  destruct (red_flag_exactly_on_condition Samples.unconscious_breathing)
    as (_ & K).
  destruct (K C) as (P & S & _). split; [exact P | exact S].
Defined.

(** X2.  On every record the priority is the step function of the returned
    score (also on the red-flag path, whose score is 10), it is never
    UNKNOWN, and the score lies between 0 and 13. *)
Theorem result_always_classified (v : Vitals) :
  priority (calculate v) = priority_of_score (score (calculate v))
  /\ priority (calculate v) <> UNKNOWN
  /\ 0 <= score (calculate v) <= 13.
Proof.
  destruct (red_flags_dec v) as [E | N].
  - destruct (scored_fields v E) as (S & _ & P & _). rewrite S, P.
    split; [reflexivity |]. split; [| apply accumulate_bounds].
    unfold priority_of_score. split_tests; discriminate.
  - rewrite (calculate_red_flag v N). simpl.
    split; [reflexivity |]. split; [discriminate | lia].
Qed.

Lemma fire_invariant (k : nat) (w : Z) (msg : string) (t : tally) :
  1 <= w <= 3 -> tally_invariant k t -> tally_invariant (S k) (fire w msg t).
Proof.
  unfold tally_invariant, fire. cbn [fst snd].
  intros W (Z & B & L). rewrite length_app. cbn [List.length].
  split; [| split; lia].
  split.
  - intros E. destruct (snd t); discriminate.
  - lia.
Qed.

Lemma keep_invariant (k : nat) (t : tally) :
  tally_invariant k t -> tally_invariant (S k) t.
Proof. unfold tally_invariant. intros (Z & B & L). auto with arith. Qed.

Lemma rule_invariant (k : nat) (c : bool) (w : Z) (msg : string) (t : tally) :
  1 <= w <= 3 -> tally_invariant k t -> tally_invariant (S k) (rule c w msg t).
Proof.
  intros W I. unfold rule.
  destruct c; [apply fire_invariant | apply keep_invariant]; assumption.
Qed.

Lemma blood_pressure_invariant (k : nat) (v : Vitals) (t : tally) :
  tally_invariant k t -> tally_invariant (S k) (rule_blood_pressure v t).
Proof.
  intros I. unfold rule_blood_pressure.
  split_tests; (apply fire_invariant; [lia | assumption])
               || (apply keep_invariant; assumption).
Qed.

Lemma accumulate_reasons (v : Vitals) : tally_invariant 7 (accumulate v).
Proof.
  unfold accumulate, rule_provider, rule_age, rule_exposure, rule_disability,
    rule_heart_rate, rule_breathing.
  repeat (apply rule_invariant; [lia |]).
  apply blood_pressure_invariant.
  repeat (apply rule_invariant; [lia |]).
  unfold tally_invariant. simpl. split; [tauto | lia].
Qed.

(** X3.  The reasons are empty exactly when the score is 0, and the
    narrative is then "STABLE: All vital signs within normal limits.". *)
Theorem no_reason_iff_score_zero (v : Vitals) :
  (reasons (calculate v) = [] <-> score (calculate v) = 0)
  /\ (score (calculate v) = 0 ->
      narrative_summary (calculate v)
      = "STABLE: All vital signs within normal limits.").
Proof.
  destruct (red_flags_dec v) as [E | N].
  - destruct (accumulate_reasons v) as (HZ & _).
    rewrite (calculate_scored v E).
    destruct (accumulate v) as [s rs]. cbn [fst snd] in HZ. simpl.
    split; [exact HZ |].
    intros S. pose proof (proj2 HZ S) as R. subst. reflexivity.
  - rewrite (calculate_red_flag v N). simpl.
    split; [split; intros; (contradiction || lia) | lia].
Qed.

Lemma no_reason_iff_score_zero_witness :
  score (calculate empty_vitals) = 0
  /\ narrative_summary (calculate empty_vitals)
     = "STABLE: All vital signs within normal limits.".
Proof.
  split; [reflexivity |].
  destruct (no_reason_iff_score_zero empty_vitals) as (_ & K).
  apply K. reflexivity.
Defined.

(** X4.  On the scoring path each reason stands for 1 to 3 points and at
    most seven rules fire, so no single finding escalates: URGENT needs at
    least two reasons and CRITICAL at least three. *)
Theorem escalation_needs_several_reasons (v : Vitals) :
  checkRedFlags v = [] ->
  let r := calculate v in
  Z.of_nat (List.length (reasons r)) <= score r
  /\ score r <= 3 * Z.of_nat (List.length (reasons r))
  /\ (List.length (reasons r) <= 7)%nat
  /\ (priority r = URGENT -> (2 <= List.length (reasons r))%nat)
  /\ (priority r = CRITICAL -> (3 <= List.length (reasons r))%nat).
Proof.
  intros E. cbv zeta.
  destruct (scored_fields v E) as (S & R & P & _). rewrite S, R, P.
  destruct (accumulate_reasons v) as (_ & B & L).
  unfold priority_of_score.
  repeat match goal with |- _ /\ _ => split end; try lia;
    destruct (fst (accumulate v) >=? 7) eqn:G7;
    destruct (fst (accumulate v) >=? 4) eqn:G4; intros; try discriminate; lia.
Qed.

Lemma escalation_needs_several_reasons_witness :
  checkRedFlags Samples.five_rules = []
  /\ priority (calculate Samples.five_rules) = CRITICAL
  /\ (3 <= List.length (reasons (calculate Samples.five_rules)))%nat.
Proof.
  split; [reflexivity |]. split; [reflexivity |].
  destruct (escalation_needs_several_reasons Samples.five_rules eq_refl)
    as (_ & _ & _ & _ & K).
  apply K. reflexivity.
Defined.

Ltac project_fields :=
  cbn [age systolic_bp heart_rate spo2 temperature consciousness
       doctor_assessment set_age set_systolic_bp set_heart_rate set_spo2
       set_temperature set_consciousness set_doctor_assessment].

(** X5.  A confused patient is scored as an alert one and as one whose
    consciousness is not given, and a low provider assessment as a missing
    one: the whole result is the same. *)
Theorem confused_and_low_change_nothing (v : Vitals) :
  calculate (set_consciousness (Some confused) v)
  = calculate (set_consciousness (Some alert) v)
  /\ calculate (set_consciousness (Some alert) v)
     = calculate (set_consciousness None v)
  /\ calculate (set_doctor_assessment (Some low) v)
     = calculate (set_doctor_assessment None v).
Proof.
  repeat match goal with |- _ /\ _ => split end;
    apply calculate_ext;
    unfold checkRedFlags, computeABCDE, consciousness_is, doctor_assessment_is;
    open_rules; project_fields; reflexivity.
Qed.

(** X6.  The labels of the ABCDE status that name a threat to life go with
    the red flags: Breathing is CRITICAL exactly when the oxygen flag's
    condition holds, Circulation is SHOCK exactly when the pressure flag's
    does, Airway is AT RISK and Disability UNCONSCIOUS exactly when the
    patient is unconscious; with any of these labels the result is CRITICAL
    with [red_flags_detected]. *)
Theorem threat_labels_are_red_flags (v : Vitals) :
  let s := abcde_status (calculate v) in
  (B_Breathing s = "CRITICAL" <-> critically_low (spo2 v))
  /\ (C_Circulation s = "SHOCK" <-> critically_low (systolic_bp v))
  /\ (A_Airway s = "AT RISK" <-> consciousness v = Some unconscious)
  /\ (D_Disability s = "UNCONSCIOUS" <-> consciousness v = Some unconscious)
  /\ (B_Breathing s = "CRITICAL" \/ C_Circulation s = "SHOCK"
      \/ A_Airway s = "AT RISK" \/ D_Disability s = "UNCONSCIOUS" ->
      red_flags_detected (calculate v) = true
      /\ priority (calculate v) = CRITICAL).
Proof.
  cbv zeta. rewrite abcde_of_calculate.
  assert (B : B_Breathing (computeABCDE v) = "CRITICAL"
              <-> critically_low (spo2 v)).
  { rewrite <- guard_critically_low. unfold computeABCDE. cbn [B_Breathing].
    destruct (truthy (spo2 v)); cbn [negb andb];
      split_tests; split; congruence. }
  assert (C : C_Circulation (computeABCDE v) = "SHOCK"
              <-> critically_low (systolic_bp v)).
  { rewrite <- guard_critically_low. unfold computeABCDE. cbn [C_Circulation].
    destruct (truthy (systolic_bp v)); cbn [negb andb];
      split_tests; split; congruence. }
  assert (A : A_Airway (computeABCDE v) = "AT RISK"
              <-> consciousness v = Some unconscious).
  { rewrite <- is_unconscious. unfold computeABCDE. cbn [A_Airway].
    split_tests; split; congruence. }
  assert (D : D_Disability (computeABCDE v) = "UNCONSCIOUS"
              <-> consciousness v = Some unconscious).
  { rewrite <- is_unconscious. unfold computeABCDE. cbn [D_Disability].
    split_tests; split; congruence. }
  repeat (split; [assumption |]).
  intros H.
  assert (N : checkRedFlags v <> []).
  { apply red_flags_iff. unfold red_flag_condition. tauto. }
  rewrite (calculate_red_flag v N). simpl. auto.
Qed.

Lemma threat_labels_are_red_flags_witness :
  A_Airway (abcde_status (calculate Samples.unconscious_breathing)) = "AT RISK"
  /\ red_flags_detected (calculate Samples.unconscious_breathing) = true
  /\ priority (calculate Samples.unconscious_breathing) = CRITICAL.
Proof.
  split; [reflexivity |].
  destruct (threat_labels_are_red_flags Samples.unconscious_breathing)
    as (_ & _ & _ & _ & K).
  apply K. right. right. left. reflexivity.
Defined.

Lemma rule_shift (c : bool) (w : Z) (msg : string) (t : tally) :
  fst (rule c w msg t) = fst t + fst (rule c w msg (0, [])).
Proof. unfold rule, fire. destruct c; cbn [fst]; lia. Qed.

Lemma blood_pressure_shift (v : Vitals) (t : tally) :
  fst (rule_blood_pressure v t) = fst t + fst (rule_blood_pressure v (0, [])).
Proof. unfold rule_blood_pressure, fire. split_tests; cbn [fst]; lia. Qed.

(** The score is the sum of what each rule gives on its own. *)
Lemma accumulate_sum (v : Vitals) :
  fst (accumulate v)
  = fst (rule_breathing v (0, [])) + fst (rule_heart_rate v (0, []))
    + fst (rule_blood_pressure v (0, [])) + fst (rule_disability v (0, []))
    + fst (rule_exposure v (0, [])) + fst (rule_age v (0, []))
    + fst (rule_provider v (0, [])).
Proof.
  unfold accumulate.
  unfold rule_provider at 1. rewrite rule_shift.
  unfold rule_age at 1. rewrite rule_shift.
  unfold rule_exposure at 1. rewrite rule_shift.
  unfold rule_disability at 1. rewrite rule_shift.
  rewrite blood_pressure_shift.
  unfold rule_heart_rate at 1. rewrite rule_shift.
  reflexivity.
Qed.

Lemma rule_weight (c : bool) (w : Z) (msg : string) :
  0 <= w -> 0 <= fst (rule c w msg (0, [])) <= w.
Proof. unfold rule, fire. destruct c; cbn [fst]; lia. Qed.

Lemma same_flags_scores (a b : Vitals) (w : Z) :
  checkRedFlags a = checkRedFlags b ->
  fst (accumulate b) <= fst (accumulate a) <= fst (accumulate b) + w ->
  red_flags_detected (calculate a) = red_flags_detected (calculate b)
  /\ score (calculate b) <= score (calculate a) <= score (calculate b) + w.
Proof.
  intros F S. assert (0 <= w) by lia.
  destruct (red_flags_dec b) as [E | N].
  - assert (E' : checkRedFlags a = []) by congruence.
    destruct (scored_fields a E') as (-> & _ & _ & ->).
    destruct (scored_fields b E) as (-> & _ & _ & ->). auto.
  - assert (N' : checkRedFlags a <> []) by congruence.
    rewrite (calculate_red_flag a N'), (calculate_red_flag b N).
    cbn [red_flags_detected score].
    split; [reflexivity | lia].
Qed.

(** X7.  Temperature, age and heart rate raise no red flag and weigh at
    most 1, 1 and 2 points: whatever value the field takes, the result has
    the red-flag status of the record without the field and a score at most
    that much above its score.  A record that holds a temperature only is
    STABLE, whatever the temperature. *)
Theorem minor_fields_weigh_little (v : Vitals) (x : value) :
  (red_flags_detected (calculate (set_temperature x v))
   = red_flags_detected (calculate (set_temperature None v))
   /\ score (calculate (set_temperature None v))
      <= score (calculate (set_temperature x v))
      <= score (calculate (set_temperature None v)) + 1)
  /\ (red_flags_detected (calculate (set_age x v))
      = red_flags_detected (calculate (set_age None v))
      /\ score (calculate (set_age None v))
         <= score (calculate (set_age x v))
         <= score (calculate (set_age None v)) + 1)
  /\ (red_flags_detected (calculate (set_heart_rate x v))
      = red_flags_detected (calculate (set_heart_rate None v))
      /\ score (calculate (set_heart_rate None v))
         <= score (calculate (set_heart_rate x v))
         <= score (calculate (set_heart_rate None v)) + 2)
  /\ priority (calculate (set_temperature x empty_vitals)) = STABLE.
Proof.
  split; [| split; [| split]].
  - apply same_flags_scores; [reflexivity |]. rewrite !accumulate_sum.
    pose proof (rule_weight
      (truthy (temperature (set_temperature x v))
       && (temperature (set_temperature x v) >? 38.0)%js) 1
      "Body temperature elevated above 38°C" ltac:(lia)) as W.
    fold (rule_exposure (set_temperature x v)) in W.
    assert (fst (rule_exposure (set_temperature None v) (0, [])) = 0)
      by reflexivity.
    unfold rule_breathing, rule_heart_rate, rule_blood_pressure,
      rule_disability, rule_age, rule_provider, consciousness_is,
      doctor_assessment_is.
    project_fields. lia.
  - apply same_flags_scores; [reflexivity |]. rewrite !accumulate_sum.
    pose proof (rule_weight
      (truthy (age (set_age x v)) && (age (set_age x v) >? 60)%js) 1
      "Patient age over 60 years" ltac:(lia)) as W.
    fold (rule_age (set_age x v)) in W.
    assert (fst (rule_age (set_age None v) (0, [])) = 0) by reflexivity.
    unfold rule_breathing, rule_heart_rate, rule_blood_pressure,
      rule_disability, rule_exposure, rule_provider, consciousness_is,
      doctor_assessment_is.
    project_fields. lia.
  - apply same_flags_scores; [reflexivity |]. rewrite !accumulate_sum.
    pose proof (rule_weight
      (truthy (heart_rate (set_heart_rate x v))
       && ((heart_rate (set_heart_rate x v) <? 50)%js
           || (heart_rate (set_heart_rate x v) >? 120)%js)) 2
      "Heart rate abnormal: below 50 or above 120 bpm" ltac:(lia)) as W.
    fold (rule_heart_rate (set_heart_rate x v)) in W.
    assert (fst (rule_heart_rate (set_heart_rate None v) (0, [])) = 0)
      by reflexivity.
    unfold rule_breathing, rule_blood_pressure, rule_disability,
      rule_exposure, rule_age, rule_provider, consciousness_is,
      doctor_assessment_is.
    project_fields. lia.
  - assert (E : checkRedFlags (set_temperature x empty_vitals) = [])
      by reflexivity.
    destruct (scored_fields _ E) as (_ & _ & -> & _).
    rewrite accumulate_sum.
    pose proof (rule_weight
      (truthy (temperature (set_temperature x empty_vitals))
       && (temperature (set_temperature x empty_vitals) >? 38.0)%js) 1
      "Body temperature elevated above 38°C" ltac:(lia)) as W.
    fold (rule_exposure (set_temperature x empty_vitals)) in W.
    change (fst (rule_breathing (set_temperature x empty_vitals) (0, [])))
      with 0.
    change (fst (rule_heart_rate (set_temperature x empty_vitals) (0, [])))
      with 0.
    change (fst (rule_blood_pressure (set_temperature x empty_vitals) (0, [])))
      with 0.
    change (fst (rule_disability (set_temperature x empty_vitals) (0, [])))
      with 0.
    change (fst (rule_age (set_temperature x empty_vitals) (0, []))) with 0.
    change (fst (rule_provider (set_temperature x empty_vitals) (0, [])))
      with 0.
    unfold priority_of_score.
    destruct (_ >=? 7) eqn:G7; [lia |].
    destruct (_ >=? 4) eqn:G4; [lia | reflexivity].
Qed.

(** ** The matcher: what a match captures *)

Import RegExp.

Lemma append_assoc_s (a b c : string) : ((a ++ b) ++ c = a ++ (b ++ c))%string.
Proof. induction a as [| x a IH]; simpl; [| rewrite IH]; reflexivity. Qed.

Lemma append_length (a b : string) :
  String.length (a ++ b) = (String.length a + String.length b)%nat.
Proof. induction a as [| x a IH]; simpl; [| rewrite IH]; reflexivity. Qed.

Lemma substring_prefix (a b : string) :
  substring 0 (String.length a) (a ++ b) = a.
Proof.
  induction a as [| x a IH]; simpl.
  - destruct b; reflexivity.
  - rewrite IH. reflexivity.
Qed.

Lemma consumed_prefix (a b : string) : consumed (a ++ b) b = a.
Proof.
  unfold consumed. rewrite append_length.
  replace (String.length a + String.length b - String.length b)%nat
    with (String.length a) by lia.
  apply substring_prefix.
Qed.

Lemma suffix_refl (s : string) : suffix_of s s.
Proof. exists "". reflexivity. Qed.

Lemma suffix_trans (a b c : string) :
  suffix_of a b -> suffix_of b c -> suffix_of a c.
Proof.
  intros [x ->] [y ->]. exists (y ++ x)%string. apply eq_sym, append_assoc_s.
Qed.

Lemma suffix_tail (x : ascii) (s : string) : suffix_of s (String x s).
Proof. exists (String x ""). reflexivity. Qed.

Lemma part_of_suffix (c s t : string) :
  part_of c s -> suffix_of s t -> part_of c t.
Proof.
  intros (a & b & ->) [y ->]. exists (y ++ a)%string, b.
  apply eq_sym, append_assoc_s.
Qed.

Lemma string_length_ind (P : string -> Prop) :
  (forall s, (forall t, (String.length t < String.length s)%nat -> P t) -> P s) ->
  forall s, P s.
Proof.
  intros H s.
  assert (G : forall n t, (String.length t < n)%nat -> P t).
  { induction n as [| n IH]; intros t L; [lia |].
    apply H. intros u U. apply IH. lia. }
  apply (G (S (String.length s))). lia.
Qed.

Lemma after_blank_suffix (s s' : string) :
  after_blank s = Some s' ->
  suffix_of s' s /\ (String.length s' < String.length s)%nat.
Proof.
  destruct s as [| c [| c1 [| c2 s3]]]; cbn [after_blank];
    repeat match goal with
           | |- context [if ?b then _ else _] => destruct b
           end;
    intros [= <-];
    (split; [| cbn [String.length]; lia]).
  - exists (String c ""). reflexivity.
  - exists (String c ""). reflexivity.
  - exists (String c (String c1 "")). reflexivity.
  - exists (String c ""). reflexivity.
  - exists (String c (String c1 "")). reflexivity.
  - exists (String c (String c1 (String c2 ""))). reflexivity.
Qed.

Section MatcherSound.

Context {A : Type}.

(** [blanks] strips one [\s] character and goes on, or stops. *)
Lemma blanks_eq (s : string) (k : string -> option A) :
  blanks s k
  = match after_blank s with
    | Some s' =>
        match blanks s' k with
        | Some m => Some m
        | None => k s
        end
    | None => k s
    end.
Proof.
  destruct s as [| c s1]; [reflexivity |].
  cbn [blanks after_blank]. destruct (blank1 c); [reflexivity |].
  destruct s1 as [| c1 s2]; [reflexivity |]. cbv beta iota.
  destruct (blank2 c c1); [reflexivity |].
  destruct s2 as [| c2 s3]; [reflexivity |]. cbv beta iota.
  destruct (blank3 c c1 c2); reflexivity.
Qed.

Lemma star_sound (p : ascii -> bool) (s : string) (k : string -> option A)
  (m : A) :
  star p s k = Some m -> exists s', suffix_of s' s /\ k s' = Some m.
Proof.
  induction s as [| c s IH]; simpl.
  - intros H. exists "". split; [apply suffix_refl | exact H].
  - destruct (p c).
    + destruct (star p s k) as [m' |] eqn:E.
      * intros [= ->]. destruct (IH eq_refl) as (s' & S & K).
        exists s'. split; [| exact K].
        apply suffix_trans with (b := s); [exact S | apply suffix_tail].
      * intros H. exists (String c s). split; [apply suffix_refl | exact H].
    + intros H. exists (String c s). split; [apply suffix_refl | exact H].
Qed.

Lemma blanks_sound (s : string) (k : string -> option A) (m : A) :
  blanks s k = Some m -> exists s', suffix_of s' s /\ k s' = Some m.
Proof.
  induction s as [s IH] using string_length_ind.
  rewrite blanks_eq. destruct (after_blank s) as [s1 |] eqn:E.
  - destruct (after_blank_suffix _ _ E) as (S & L).
    destruct (blanks s1 k) as [m' |] eqn:B.
    + intros [= ->]. destruct (IH s1 L B) as (s' & S' & K).
      exists s'. split; [| exact K].
      apply suffix_trans with (b := s1); assumption.
    + intros H. exists s. split; [apply suffix_refl | exact H].
  - intros H. exists s. split; [apply suffix_refl | exact H].
Qed.

Lemma repeat_sound (p : ascii -> bool) (most : nat) :
  forall (least : nat) (s : string) (k : string -> option A) (m : A),
    repeat p least most s k = Some m ->
    exists pre s',
      s = (pre ++ s')%string
      /\ all_chars p pre = true
      /\ (least <= String.length pre <= most)%nat
      /\ k s' = Some m.
Proof.
  induction most as [| most IH]; intros least s k m; simpl.
  - destruct least; [| discriminate].
    intros H. exists "", s. simpl. auto with arith.
  - assert (Stop : match least with O => k s | S _ => None end = Some m ->
                   exists pre s',
                     s = (pre ++ s')%string /\ all_chars p pre = true
                     /\ (least <= String.length pre <= S most)%nat
                     /\ k s' = Some m).
    { destruct least; [| discriminate].
      intros H. exists "", s. simpl. auto with arith. }
    destruct s as [| c s]; [exact Stop |].
    destruct (p c) eqn:P; [| exact Stop].
    destruct (repeat p (Nat.pred least) most s k) as [m' |] eqn:E;
      [| exact Stop].
    intros [= ->]. destruct (IH _ _ _ _ E) as (pre & s' & -> & D & L & K).
    exists (String c pre), s'. simpl. rewrite P, D.
    repeat split; auto; lia.
Qed.

End MatcherSound.

(** A successful run went through its continuation, on a suffix of the
    text, with the captures of the groups added. *)
Lemma run_sound (r : regex) :
  digit_groups r ->
  forall (s : string) (caps : captures)
         (k : string -> captures -> option captures) (m : captures),
    run r s caps k = Some m ->
    exists s' extra,
      suffix_of s' s
      /\ k s' (caps ++ extra) = Some m
      /\ (min_groups r <= List.length extra)%nat
      /\ Forall (fun c => digits23 c /\ part_of c s) extra.
Proof.
  induction r as [| p | r1 IH1 r2 IH2 | r1 IH1 r2 IH2 | p | | least most p
                 | r IH]; intros G s caps k m; cbn [run min_groups].
  - intros H. exists s, []. rewrite app_nil_r.
    auto using suffix_refl.
  - destruct s as [| c s]; [discriminate |].
    destruct (p c); [| discriminate].
    intros H. exists s, []. rewrite app_nil_r.
    auto using suffix_tail.
  - destruct G as [G1 G2]. intros H.
    destruct (IH1 G1 _ _ _ _ H) as (s1 & e1 & S1 & K1 & L1 & F1).
    destruct (IH2 G2 _ _ _ _ K1) as (s2 & e2 & S2 & K2 & L2 & F2).
    exists s2, (e1 ++ e2). rewrite app_assoc, length_app.
    split; [apply suffix_trans with (b := s1); assumption |].
    split; [exact K2 |]. split; [lia |].
    apply Forall_app. split; [exact F1 |].
    apply Forall_impl with (2 := F2).
    intros c [D P]. split; [exact D |].
    apply part_of_suffix with (s := s1); assumption.
  - destruct G as [G1 G2].
    destruct (run r1 s caps k) as [m' |] eqn:E.
    + intros [= ->].
      destruct (IH1 G1 _ _ _ _ E) as (s1 & e1 & S1 & K1 & L1 & F1).
      exists s1, e1. repeat split; auto; lia.
    + intros H.
      destruct (IH2 G2 _ _ _ _ H) as (s2 & e2 & S2 & K2 & L2 & F2).
      exists s2, e2. repeat split; auto; lia.
  - intros H. apply star_sound in H. destruct H as (s' & S & K).
    exists s', []. rewrite app_nil_r. auto.
  - intros H. apply blanks_sound in H. destruct H as (s' & S & K).
    exists s', []. rewrite app_nil_r. auto.
  - intros H. apply repeat_sound in H.
    destruct H as (pre & s' & -> & _ & _ & K).
    exists s', []. rewrite app_nil_r.
    split; [exists pre; reflexivity | auto].
  - destruct r as [| | | | | | least most p |]; try contradiction.
    destruct least as [| [| [| least]]]; try contradiction.
    destruct most as [| [| [| [| most]]]]; try contradiction.
    cbn [digit_groups] in G. subst p. cbn [run].
    intros H. apply repeat_sound in H.
    destruct H as (pre & s' & -> & D & L & K).
    rewrite consumed_prefix in K.
    exists s', [pre]. split; [exists pre; reflexivity |].
    split; [exact K |]. split; [simpl; lia |].
    constructor; [| constructor].
    split; [split; assumption |].
    exists "", s'. reflexivity.
Qed.

Lemma match_sound (r : regex) (input : string) (m : captures) :
  digit_groups r ->
  match_ input r = Some m ->
  (min_groups r <= List.length m)%nat
  /\ Forall (fun c => digits23 c /\ part_of c input) m.
Proof.
  intros G. induction input as [| x input IH]; cbn [match_].
  - destruct (run r "" [] _) as [m' |] eqn:E; [| discriminate].
    intros [= ->].
    destruct (run_sound r G _ _ _ _ E) as (s' & e & _ & [= <-] & L & F).
    auto.
  - destruct (run r (String x input) [] _) as [m' |] eqn:E.
    + intros [= ->].
      destruct (run_sound r G _ _ _ _ E) as (s' & e & _ & [= <-] & L & F).
      auto.
    + intros H. destruct (IH H) as (L & F). split; [exact L |].
      apply Forall_impl with (2 := F).
      intros c [D P]. split; [exact D |].
      apply part_of_suffix with (s := input); [exact P | apply suffix_tail].
Qed.

(** ** The local parser: what it extracts *)

Lemma digit_code (c : ascii) :
  digit c = true -> 0 <= Z.of_nat (code c) - 48 <= 9.
Proof.
  unfold digit. intros H. apply andb_prop in H. destruct H as [L U].
  apply Nat.leb_le in L. apply Nat.leb_le in U. lia.
Qed.

Lemma parseInt_digits23 (c : string) :
  digits23 c -> exists k, parseInt c = Fin (inject_Z k) /\ 0 <= k <= 999.
Proof.
  intros [D L].
  destruct c as [| a [| b [| d [| e c]]]]; cbn [String.length] in L; try lia;
    cbn [all_chars] in D;
    repeat match goal with
           | H : (_ && _)%bool = true |- _ =>
               apply andb_prop in H; destruct H
           end;
    unfold parseInt; cbn [digits_value];
    repeat match goal with H : digit _ = true |- _ =>
             rewrite H; apply digit_code in H end;
    eexists; (split; [reflexivity | lia]).
Qed.

Lemma all_chars_app (p : ascii -> bool) (a b : string) :
  all_chars p (a ++ b) = (all_chars p a && all_chars p b)%bool.
Proof.
  induction a as [| x a IH]; simpl; [reflexivity |].
  rewrite IH. apply andb_assoc.
Qed.

Lemma digits_need_a_digit (c input : string) :
  digits23 c -> part_of c input -> all_chars non_digit input = false.
Proof.
  intros [D L] (a & b & ->).
  rewrite !all_chars_app.
  destruct c as [| x c]; cbn [String.length] in L; [lia |].
  cbn [all_chars] in *. apply andb_prop in D. destruct D as [X _].
  unfold non_digit. rewrite X. cbn [negb andb]. apply andb_false_r.
Qed.

Lemma or_else_some (a b : option captures) (m : captures) :
  or_else a b = Some m -> a = Some m \/ b = Some m.
Proof. destruct a; simpl; auto. Qed.

(** The fields of the record [localExtract] returns, one by one. *)
Lemma localExtract_fields (input : string) :
  let number_of (a b : regex) :=
    option_map (fun m => parseInt (group 1 m))
      (or_else (match_ input a) (match_ input b)) in
  let lower := toLowerCase input in
  spo2 (localExtract input) = number_of spo2_keyword spo2_percent
  /\ systolic_bp (localExtract input) = number_of bp_pair bp_keyword
  /\ heart_rate (localExtract input) = number_of hr_keyword hr_bpm
  /\ age (localExtract input) = None
  /\ temperature (localExtract input) = None
  /\ doctor_assessment (localExtract input) = None
  /\ consciousness (localExtract input)
     = Some (if includes lower "unconscious" || includes lower "not waking"
                || includes lower "passed out" then unconscious
             else if includes lower "confused" || includes lower "disoriented"
             then confused
             else if includes lower "sleepy" || includes lower "drowsy"
             then drowsy
             else alert).
Proof.
  cbv zeta. unfold localExtract. cbv zeta.
  destruct (or_else (match_ input spo2_keyword) (match_ input spo2_percent));
    destruct (or_else (match_ input bp_pair) (match_ input bp_keyword));
    destruct (or_else (match_ input hr_keyword) (match_ input hr_bpm));
    destruct (includes (toLowerCase input) "unconscious"
              || includes (toLowerCase input) "not waking"
              || includes (toLowerCase input) "passed out");
    destruct (includes (toLowerCase input) "confused"
              || includes (toLowerCase input) "disoriented");
    destruct (includes (toLowerCase input) "sleepy"
              || includes (toLowerCase input) "drowsy");
    repeat split.
Qed.

Lemma number_read (input : string) (a b : regex) (n : number) :
  digit_groups a -> digit_groups b ->
  (1 <= min_groups a)%nat -> (1 <= min_groups b)%nat ->
  option_map (fun m => parseInt (group 1 m))
    (or_else (match_ input a) (match_ input b)) = Some n ->
  read_from input n.
Proof.
  intros Ga Gb La Lb H.
  destruct (or_else (match_ input a) (match_ input b)) as [m |] eqn:E;
    [| discriminate].
  cbn [option_map] in H. injection H as <-.
  assert (K : (1 <= List.length m)%nat
              /\ Forall (fun c => digits23 c /\ part_of c input) m).
  { apply or_else_some in E. destruct E as [E | E];
      apply match_sound in E; auto; destruct E; split; auto; lia. }
  destruct K as [L F]. destruct m as [| c m]; [simpl in L; lia |].
  inversion F as [| ? ? [D P] _]. subst.
  exists c. auto.
Qed.

Lemma patterns_capture_digits :
  (digit_groups spo2_keyword /\ (1 <= min_groups spo2_keyword)%nat)
  /\ (digit_groups spo2_percent /\ (1 <= min_groups spo2_percent)%nat)
  /\ (digit_groups bp_pair /\ (1 <= min_groups bp_pair)%nat)
  /\ (digit_groups bp_keyword /\ (1 <= min_groups bp_keyword)%nat)
  /\ (digit_groups hr_keyword /\ (1 <= min_groups hr_keyword)%nat)
  /\ (digit_groups hr_bpm /\ (1 <= min_groups hr_bpm)%nat).
Proof. cbv [spo2_keyword spo2_percent bp_pair bp_keyword hr_keyword hr_bpm
            keyword literal]. simpl. intuition lia. Qed.

Lemma parsed_number_read (input : string) (n : number) :
  spo2 (localExtract input) = Some n
  \/ systolic_bp (localExtract input) = Some n
  \/ heart_rate (localExtract input) = Some n ->
  read_from input n.
Proof.
  destruct (localExtract_fields input) as (S & B & H & _).
  destruct patterns_capture_digits
    as ((? & ?) & (? & ?) & (? & ?) & (? & ?) & (? & ?) & (? & ?)).
  rewrite S, B, H.
  intros [K | [K | K]]; eapply number_read; try exact K; assumption.
Qed.

(** X8.  Whatever the text, the record of the local parser has a
    consciousness and has no age, temperature or provider assessment. *)
Theorem parser_fields (input : string) :
  (exists c, consciousness (localExtract input) = Some c)
  /\ age (localExtract input) = None
  /\ temperature (localExtract input) = None
  /\ doctor_assessment (localExtract input) = None.
Proof.
  destruct (localExtract_fields input) as (_ & _ & _ & A & T & D & C).
  split; [eexists; exact C | auto].
Qed.

(** X9.  A number the local parser extracts is the value of two or three
    digits that stand in the text: an integer from 0 to 999, never NaN. *)
Theorem parsed_numbers_are_small_integers (input : string) (n : number) :
  spo2 (localExtract input) = Some n
  \/ systolic_bp (localExtract input) = Some n
  \/ heart_rate (localExtract input) = Some n ->
  read_from input n
  /\ exists k, n = Fin (inject_Z k) /\ 0 <= k <= 999.
Proof.
  intros H. pose proof (parsed_number_read input n H) as R.
  split; [exact R |].
  destruct R as (c & _ & D & ->). apply parseInt_digits23. exact D.
Qed.

Lemma parsed_numbers_are_small_integers_witness :
  spo2 (localExtract "SpO2 is 85, HR 130") = Some (Fin 85)
  /\ read_from "SpO2 is 85, HR 130" (Fin 85)
  /\ exists k, Fin 85 = Fin (inject_Z k) /\ 0 <= k <= 999.
Proof.
  split; [reflexivity |].
  apply (parsed_numbers_are_small_integers "SpO2 is 85, HR 130" (Fin 85)).
  left. reflexivity.
Defined.

Lemma vitals_eta (v : Vitals) :
  v = mkVitals (age v) (systolic_bp v) (heart_rate v) (spo2 v) (temperature v)
        (consciousness v) (doctor_assessment v).
Proof. destruct v. reflexivity. Qed.

(** X10.  From a text with no digit the local parser extracts no number,
    so the engine decides on the consciousness keywords alone: the result
    is never URGENT, and it is CRITICAL exactly when the text was read as
    an unconscious patient. *)
Theorem text_without_digits (input : string) :
  all_chars non_digit input = true ->
  spo2 (localExtract input) = None
  /\ systolic_bp (localExtract input) = None
  /\ heart_rate (localExtract input) = None
  /\ priority (calculate (localExtract input)) <> URGENT
  /\ (priority (calculate (localExtract input)) = CRITICAL
      <-> consciousness (localExtract input) = Some unconscious).
Proof.
  intros N.
  assert (R : forall n, ~ read_from input n).
  { intros n (c & P & D & _).
    rewrite (digits_need_a_digit c input D P) in N. discriminate. }
  assert (S : spo2 (localExtract input) = None).
  { destruct (spo2 (localExtract input)) as [n |] eqn:E; [| reflexivity].
    destruct (R n). apply parsed_number_read. auto. }
  assert (B : systolic_bp (localExtract input) = None).
  { destruct (systolic_bp (localExtract input)) as [n |] eqn:E; [| reflexivity].
    destruct (R n). apply parsed_number_read. auto. }
  assert (H : heart_rate (localExtract input) = None).
  { destruct (heart_rate (localExtract input)) as [n |] eqn:E; [| reflexivity].
    destruct (R n). apply parsed_number_read. auto. }
  destruct (parser_fields input) as ((c & C) & A & T & D).
  do 3 (split; [assumption |]).
  rewrite (vitals_eta (localExtract input)), S, B, H, A, T, D, C.
  cbn [consciousness].
  destruct c; vm_compute; (split; [| split]); congruence.
Qed.

Lemma text_without_digits_witness :
  all_chars non_digit "She passed out, not waking" = true
  /\ priority (calculate (localExtract "She passed out, not waking")) = CRITICAL.
Proof.
  split; [reflexivity |].
  destruct (text_without_digits "She passed out, not waking" eq_refl)
    as (_ & _ & _ & _ & K).
  apply K. reflexivity.
Defined.

Lemma points_bounds (v : Vitals) :
  0 <= fst (rule_breathing v (0, [])) <= 2
  /\ 0 <= fst (rule_heart_rate v (0, [])) <= 2
  /\ 0 <= fst (rule_blood_pressure v (0, [])) <= 2
  /\ 0 <= fst (rule_disability v (0, [])) <= 3
  /\ 0 <= fst (rule_exposure v (0, [])) <= 1
  /\ 0 <= fst (rule_age v (0, [])) <= 1
  /\ 0 <= fst (rule_provider v (0, [])) <= 2.
Proof.
  unfold rule_breathing, rule_heart_rate, rule_disability, rule_exposure,
    rule_age, rule_provider.
  repeat match goal with
         | |- (0 <= fst (rule _ _ _ _) <= _) /\ _ =>
             split; [apply rule_weight; lia |]
         | |- 0 <= fst (rule _ _ _ _) <= _ => apply rule_weight; lia
         | |- (0 <= fst (rule_blood_pressure _ _) <= _) /\ _ =>
             split; [unfold rule_blood_pressure, fire;
                     split_tests; cbn [fst]; lia |]
         end.
Qed.

Lemma missing_fields_give_nothing (v : Vitals) (t : tally) :
  (temperature v = None -> rule_exposure v t = t)
  /\ (age v = None -> rule_age v t = t)
  /\ (doctor_assessment v = None -> rule_provider v t = t).
Proof.
  unfold rule_exposure, rule_age, rule_provider, doctor_assessment_is.
  repeat split; intros ->; reflexivity.
Qed.

(** X11.  Triage from the local parser alone never reports a raised
    temperature, an age over 60 or a provider assessment, since the parser
    extracts none of them; without a red flag its score is at most 9. *)
Theorem local_triage_reasons (input : string) :
  let r := calculate (localExtract input) in
  (forall x, In x (reasons r) ->
     ~ In x ["Body temperature elevated above 38°C";
             "Patient age over 60 years";
             "Provider assessment indicates moderate risk";
             "Clinical provider indicates critical condition"])
  /\ score r <= 10
  /\ (red_flags_detected r = false -> score r <= 9).
Proof.
  cbv zeta.
  destruct (parser_fields input) as (_ & A & T & D).
  set (v := localExtract input) in *.
  destruct (missing_fields_give_nothing v (0, [])) as (ME & MA & MP).
  pose proof (points_bounds v) as (P1 & P2 & P3 & P4 & _).
  destruct (red_flags_dec v) as [E | N].
  - destruct (scored_fields v E) as (-> & -> & _ & _).
    assert (S : fst (accumulate v) <= 9).
    { rewrite accumulate_sum, (ME T), (MA A), (MP D). cbn [fst]. lia. }
    split; [| lia].
    unfold accumulate.
    destruct (missing_fields_give_nothing v
      (rule_disability v (rule_blood_pressure v (rule_heart_rate v
         (rule_breathing v (0, []))))))
      as (ME' & _).
    rewrite (ME' T).
    destruct (missing_fields_give_nothing v
      (rule_disability v (rule_blood_pressure v (rule_heart_rate v
         (rule_breathing v (0, []))))))
      as (_ & MA' & MP').
    rewrite (MA' A), (MP' D).
    unfold rule_disability, rule_blood_pressure, rule_heart_rate,
      rule_breathing, rule, fire.
    intros x. split_tests; simpl; intuition (subst; discriminate).
  - rewrite (calculate_red_flag v N).
    cbn [reasons score red_flags_detected].
    split; [| split; [lia | discriminate]].
    unfold checkRedFlags, push_if, doctor_assessment_is. rewrite D.
    intros x. split_tests; simpl; intuition (subst; discriminate).
Qed.

(** ** The local parser: letter case *)

Lemma lower_char_facts (c : ascii) :
  lower_char (lower_char c) = lower_char c
  /\ digit (lower_char c) = digit c
  /\ blank1 (lower_char c) = blank1 c
  /\ exactly "%" (lower_char c) = exactly "%" c
  /\ exactly "/" (lower_char c) = exactly "/" c
  /\ (digit c = true -> lower_char c = c)
  /\ ((128 <=? code c)%nat = true -> lower_char c = c)
  /\ (128 <=? code (lower_char c))%nat = (128 <=? code c)%nat.
Proof.
  destruct c as [[] [] [] [] [] [] [] []]; vm_compute; repeat split;
    congruence.
Qed.

(** The characters outside ASCII are those of one byte of 128 or more; the
    tests on two and three bytes only accept such bytes, which lowering the
    ASCII letters leaves alone. *)
Lemma high_bytes (c : ascii) (n : nat) :
  (128 <= n)%nat -> (code c =? n)%nat = true -> (128 <=? code c)%nat = true.
Proof.
  intros N E. apply Nat.eqb_eq in E. apply Nat.leb_le. lia.
Qed.

Lemma blank2_high (c c1 : ascii) :
  blank2 c c1 = true ->
  (128 <=? code c)%nat = true /\ (128 <=? code c1)%nat = true.
Proof.
  unfold blank2. intros H. apply andb_prop in H. destruct H as [H H1].
  split; eapply high_bytes; try eassumption; lia.
Qed.

Lemma blank3_high (c c1 c2 : ascii) :
  blank3 c c1 c2 = true ->
  (128 <=? code c)%nat = true /\ (128 <=? code c1)%nat = true
  /\ (128 <=? code c2)%nat = true.
Proof.
  unfold blank3. intros H.
  repeat match goal with
         | H : (_ || _)%bool = true |- _ => apply orb_prop in H; destruct H as [H | H]
         | H : (_ && _)%bool = true |- _ => apply andb_prop in H; destruct H
         end;
    repeat match goal with
           | H : (_ =? _)%nat = true |- _ => apply Nat.eqb_eq in H
           | H : (_ <=? _)%nat = true |- _ => apply Nat.leb_le in H
           end;
    repeat split; apply Nat.leb_le; lia.
Qed.

Lemma capital_i_dot_high (c c1 : ascii) :
  capital_i_dot c c1 = true ->
  (128 <=? code c)%nat = true /\ (128 <=? code c1)%nat = true.
Proof.
  unfold capital_i_dot. intros H. apply andb_prop in H. destruct H as [H H1].
  split; eapply high_bytes; try eassumption; lia.
Qed.

Lemma kelvin_sign_high (c c1 c2 : ascii) :
  kelvin_sign c c1 c2 = true ->
  (128 <=? code c)%nat = true /\ (128 <=? code c1)%nat = true
  /\ (128 <=? code c2)%nat = true.
Proof.
  unfold kelvin_sign. intros H. apply andb_prop in H. destruct H as [H H2].
  apply andb_prop in H. destruct H as [H H1].
  repeat split; eapply high_bytes; try eassumption; lia.
Qed.

Lemma high_lower (c : ascii) :
  (128 <=? code (lower_char c))%nat = true -> lower_char c = c.
Proof.
  destruct (lower_char_facts c) as (_ & _ & _ & _ & _ & _ & F & ->).
  exact F.
Qed.

Lemma test2_lower (t : ascii -> ascii -> bool) :
  (forall c c1, t c c1 = true ->
     (128 <=? code c)%nat = true /\ (128 <=? code c1)%nat = true) ->
  forall c c1, t (lower_char c) (lower_char c1) = t c c1.
Proof.
  intros H c c1.
  destruct (t c c1) eqn:E.
  - destruct (H _ _ E) as (H0 & H1).
    destruct (lower_char_facts c) as (_ & _ & _ & _ & _ & _ & F & _).
    destruct (lower_char_facts c1) as (_ & _ & _ & _ & _ & _ & F1 & _).
    rewrite (F H0), (F1 H1). exact E.
  - destruct (t (lower_char c) (lower_char c1)) eqn:E'; [| reflexivity].
    destruct (H _ _ E') as (H0 & H1).
    rewrite (high_lower _ H0), (high_lower _ H1) in E'. congruence.
Qed.

Lemma test3_lower (t : ascii -> ascii -> ascii -> bool) :
  (forall c c1 c2, t c c1 c2 = true ->
     (128 <=? code c)%nat = true /\ (128 <=? code c1)%nat = true
     /\ (128 <=? code c2)%nat = true) ->
  forall c c1 c2,
    t (lower_char c) (lower_char c1) (lower_char c2) = t c c1 c2.
Proof.
  intros H c c1 c2.
  destruct (t c c1 c2) eqn:E.
  - destruct (H _ _ _ E) as (H0 & H1 & H2).
    destruct (lower_char_facts c) as (_ & _ & _ & _ & _ & _ & F & _).
    destruct (lower_char_facts c1) as (_ & _ & _ & _ & _ & _ & F1 & _).
    destruct (lower_char_facts c2) as (_ & _ & _ & _ & _ & _ & F2 & _).
    rewrite (F H0), (F1 H1), (F2 H2). exact E.
  - destruct (t (lower_char c) (lower_char c1) (lower_char c2)) eqn:E';
      [| reflexivity].
    destruct (H _ _ _ E') as (H0 & H1 & H2).
    rewrite (high_lower _ H0), (high_lower _ H1), (high_lower _ H2) in E'.
    congruence.
Qed.

Lemma blind_classes :
  case_blind digit /\ case_blind non_digit
  /\ case_blind (exactly "%") /\ case_blind (exactly "/")
  /\ forall a, case_blind (ignoring_case a).
Proof.
  unfold case_blind, non_digit, ignoring_case.
  repeat split; intros; try apply lower_char_facts.
  - f_equal. apply lower_char_facts.
  - destruct (lower_char_facts c) as (-> & _). reflexivity.
Qed.

Lemma blind_literal (a : string) : blind (literal ignoring_case a).
Proof.
  induction a as [| x a IH]; cbn [literal blind]; [exact I |].
  destruct a; cbn [blind]; [| split; [| exact IH]];
    apply blind_classes.
Qed.

Lemma patterns_blind :
  blind spo2_keyword /\ blind spo2_percent /\ blind bp_pair
  /\ blind bp_keyword /\ blind hr_keyword /\ blind hr_bpm.
Proof.
  destruct blind_classes as (D & N & P & L & _).
  unfold spo2_keyword, spo2_percent, bp_pair, bp_keyword, hr_keyword, hr_bpm,
    keyword.
  cbn [blind].
  repeat match goal with |- _ /\ _ => split end;
    try assumption; try apply blind_literal; (exact I || exact P || exact L).
Qed.

Lemma lower_length (s : string) :
  String.length (lower_ascii s) = String.length s.
Proof. induction s; simpl; congruence. Qed.

Lemma lower_substring (s : string) :
  forall n m, substring n m (lower_ascii s) = lower_ascii (substring n m s).
Proof.
  induction s as [| c s IH]; intros n m.
  - destruct n, m; reflexivity.
  - destruct n, m; simpl; rewrite ?IH; reflexivity.
Qed.

Lemma lower_consumed (s s' : string) :
  consumed (lower_ascii s) (lower_ascii s') = lower_ascii (consumed s s').
Proof.
  unfold consumed. rewrite !lower_length. apply lower_substring.
Qed.

Lemma after_blank_lower (s : string) :
  after_blank (lower_ascii s) = option_map lower_ascii (after_blank s).
Proof.
  destruct s as [| c s1]; [reflexivity |].
  cbn [lower_ascii after_blank].
  destruct (lower_char_facts c) as (_ & _ & -> & _).
  destruct (blank1 c); [reflexivity |].
  destruct s1 as [| c1 s2]; [reflexivity |]. cbn [lower_ascii].
  rewrite (test2_lower blank2 blank2_high).
  destruct (blank2 c c1); [reflexivity |].
  destruct s2 as [| c2 s3]; [reflexivity |]. cbn [lower_ascii].
  rewrite (test3_lower blank3 blank3_high).
  destruct (blank3 c c1 c2); reflexivity.
Qed.

(** The keywords are looked for in a text that has no ASCII capital left,
    whether or not they were lowered beforehand. *)
Lemma toLowerCase_lower_ascii (s : string) :
  toLowerCase (lower_ascii s) = toLowerCase s.
Proof.
  induction s as [s IH] using string_length_ind.
  destruct s as [| c s1]; [reflexivity |].
  assert (I1 : toLowerCase (lower_ascii s1) = toLowerCase s1)
    by (apply IH; cbn [String.length]; lia).
  destruct (lower_char_facts c) as (LL & _).
  destruct s1 as [| c1 s2].
  { cbn [lower_ascii toLowerCase]. rewrite LL. reflexivity. }
  assert (I2 : toLowerCase (lower_ascii s2) = toLowerCase s2)
    by (apply IH; cbn [String.length]; lia).
  change (lower_ascii (String c (String c1 s2)))
    with (String (lower_char c) (String (lower_char c1) (lower_ascii s2))).
  change (lower_ascii (String c1 s2))
    with (String (lower_char c1) (lower_ascii s2)) in I1.
  destruct s2 as [| c2 s3].
  { cbn [lower_ascii] in *.
    change (toLowerCase (String (lower_char c) (String (lower_char c1) "")))
      with (if capital_i_dot (lower_char c) (lower_char c1)
            then String "i" (String (ascii_of_nat 204)
                   (String (ascii_of_nat 135) ""))
            else String (lower_char (lower_char c))
                   (toLowerCase (String (lower_char c1) ""))).
    change (toLowerCase (String c (String c1 "")))
      with (if capital_i_dot c c1
            then String "i" (String (ascii_of_nat 204)
                   (String (ascii_of_nat 135) ""))
            else String (lower_char c) (toLowerCase (String c1 ""))).
    rewrite (test2_lower capital_i_dot capital_i_dot_high), LL, I1.
    reflexivity. }
  assert (I3 : toLowerCase (lower_ascii s3) = toLowerCase s3)
    by (apply IH; cbn [String.length]; lia).
  change (lower_ascii (String c2 s3))
    with (String (lower_char c2) (lower_ascii s3)) in *.
  change (toLowerCase (String (lower_char c) (String (lower_char c1)
            (String (lower_char c2) (lower_ascii s3)))))
    with (if capital_i_dot (lower_char c) (lower_char c1)
          then String "i" (String (ascii_of_nat 204) (String (ascii_of_nat 135)
                 (toLowerCase (String (lower_char c2) (lower_ascii s3)))))
          else if kelvin_sign (lower_char c) (lower_char c1) (lower_char c2)
               then String "k" (toLowerCase (lower_ascii s3))
               else String (lower_char (lower_char c))
                      (toLowerCase (String (lower_char c1)
                         (String (lower_char c2) (lower_ascii s3))))).
  change (toLowerCase (String c (String c1 (String c2 s3))))
    with (if capital_i_dot c c1
          then String "i" (String (ascii_of_nat 204) (String (ascii_of_nat 135)
                 (toLowerCase (String c2 s3))))
          else if kelvin_sign c c1 c2
               then String "k" (toLowerCase s3)
               else String (lower_char c)
                      (toLowerCase (String c1 (String c2 s3)))).
  rewrite (test2_lower capital_i_dot capital_i_dot_high),
    (test3_lower kelvin_sign kelvin_sign_high), LL, I1, I2, I3.
  reflexivity.
Qed.

Section Lowered.

Context {A B : Type} (g : A -> B).

Lemma star_lower (p : ascii -> bool) (k : string -> option A)
  (k' : string -> option B) :
  case_blind p ->
  (forall s, k' (lower_ascii s) = option_map g (k s)) ->
  forall s, star p (lower_ascii s) k' = option_map g (star p s k).
Proof.
  intros P K. induction s as [| c s IH]; cbn [lower_ascii star].
  - apply (K "").
  - rewrite P, IH. destruct (p c); [| apply (K (String c s))].
    destruct (star p s k); [reflexivity | apply (K (String c s))].
Qed.

Lemma blanks_lower (k : string -> option A) (k' : string -> option B) :
  (forall s, k' (lower_ascii s) = option_map g (k s)) ->
  forall s, blanks (lower_ascii s) k' = option_map g (blanks s k).
Proof.
  intros K s. induction s as [s IH] using string_length_ind.
  rewrite (blanks_eq (lower_ascii s)), (blanks_eq s), after_blank_lower.
  destruct (after_blank s) as [s1 |] eqn:E; cbn [option_map]; [| apply K].
  destruct (after_blank_suffix _ _ E) as (_ & L).
  rewrite (IH s1 L). destruct (blanks s1 k); [reflexivity | apply K].
Qed.

Lemma repeat_lower (p : ascii -> bool) (k : string -> option A)
  (k' : string -> option B) :
  case_blind p ->
  (forall s, k' (lower_ascii s) = option_map g (k s)) ->
  forall most least s,
    repeat p least most (lower_ascii s) k'
    = option_map g (repeat p least most s k).
Proof.
  intros P K. induction most as [| most IH]; intros least s.
  - cbn [repeat]. destruct least; [apply K | reflexivity].
  - destruct s as [| c s]; cbn [lower_ascii repeat].
    + destruct least; [apply (K "") | reflexivity].
    + rewrite P, IH. fold (lower_ascii (String c s)).
      destruct (p c), (repeat p (Nat.pred least) most s k), least;
        try reflexivity; apply (K (String c s)).
Qed.

End Lowered.

Lemma run_lower (r : regex) :
  blind r ->
  forall (s : string) (caps : captures)
         (k k' : string -> captures -> option captures),
    (forall s1 c1,
       k' (lower_ascii s1) (map lower_ascii c1)
       = option_map (map lower_ascii) (k s1 c1)) ->
    run r (lower_ascii s) (map lower_ascii caps) k'
    = option_map (map lower_ascii) (run r s caps k).
Proof.
  induction r as [| p | r1 IH1 r2 IH2 | r1 IH1 r2 IH2 | p | | least most p
                 | r IH]; intros G s caps k k' K; cbn [run blind] in *.
  - apply K.
  - destruct s as [| c s]; cbn [lower_ascii]; [reflexivity |].
    rewrite G. destruct (p c); [apply K | reflexivity].
  - destruct G as [G1 G2]. apply IH1; [exact G1 |].
    intros s1 c1. apply IH2; assumption.
  - destruct G as [G1 G2].
    rewrite (IH1 G1 s caps k k' K), (IH2 G2 s caps k k' K).
    destruct (run r1 s caps k); reflexivity.
  - apply star_lower; [exact G |]. intros s1. apply K.
  - apply blanks_lower. intros s1. apply K.
  - apply repeat_lower; [exact G |]. intros s1. apply K.
  - apply IH; [exact G |]. intros s1 c1.
    rewrite lower_consumed.
    change [lower_ascii (consumed s s1)]
      with (map lower_ascii [consumed s s1]).
    rewrite <- map_app. apply K.
Qed.

Lemma match_lower (r : regex) (input : string) :
  blind r ->
  match_ (lower_ascii input) r
  = option_map (map lower_ascii) (match_ input r).
Proof.
  intros G.
  assert (R : forall s,
             run r (lower_ascii s) [] (fun _ caps => Some caps)
             = option_map (map lower_ascii)
                 (run r s [] (fun _ caps => Some caps))).
  { intros s. apply (run_lower r G s []). reflexivity. }
  induction input as [| c input IH].
  - pose proof (R "") as R0. cbn [lower_ascii] in R0.
    cbn [lower_ascii match_].
    destruct (run r "" [] _); [exact R0 | reflexivity].
  - pose proof (R (String c input)) as R1. cbn [lower_ascii] in R1.
    cbn [lower_ascii match_]. rewrite R1, IH.
    destruct (run r (String c input) [] _); reflexivity.
Qed.

Lemma digits_value_lower (s : string) :
  forall acc, digits_value acc (lower_ascii s) = digits_value acc s.
Proof.
  induction s as [| c s IH]; intros acc; cbn [lower_ascii digits_value];
    [reflexivity |].
  destruct (lower_char_facts c) as (_ & D & _ & _ & _ & E & _).
  rewrite D. destruct (digit c); [| reflexivity].
  rewrite (E eq_refl). apply IH.
Qed.

Lemma parseInt_lower (s : string) : parseInt (lower_ascii s) = parseInt s.
Proof.
  destruct s as [| c s]; [reflexivity |].
  unfold parseInt. fold (lower_ascii (String c s)).
  rewrite digits_value_lower. cbn [lower_ascii].
  destruct (lower_char_facts c) as (_ & -> & _). reflexivity.
Qed.

Lemma number_lower (a b : option captures) :
  option_map (fun m => parseInt (group 1 m))
    (or_else (option_map (map lower_ascii) a) (option_map (map lower_ascii) b))
  = option_map (fun m => parseInt (group 1 m)) (or_else a b).
Proof.
  assert (G : forall m, parseInt (group 1 (map lower_ascii m))
                        = parseInt (group 1 m)).
  { intros m. unfold group.
    change "" with (lower_ascii "") at 1.
    rewrite map_nth. apply parseInt_lower. }
  destruct a as [m |]; [cbn; f_equal; apply G |].
  destruct b as [m |]; [cbn; f_equal; apply G | reflexivity].
Qed.

Lemma localExtract_lower (input : string) :
  localExtract (lower_ascii input) = localExtract input.
Proof.
  destruct patterns_blind as (B1 & B2 & B3 & B4 & B5 & B6).
  rewrite (vitals_eta (localExtract (lower_ascii input))),
    (vitals_eta (localExtract input)).
  destruct (localExtract_fields (lower_ascii input))
    as (-> & -> & -> & -> & -> & -> & ->).
  destruct (localExtract_fields input) as (-> & -> & -> & -> & -> & -> & ->).
  rewrite toLowerCase_lower_ascii, !match_lower, !number_lower by assumption.
  reflexivity.
Qed.

(** X12.  The local parser does not look at the case of ASCII letters: two
    texts that are the same once their ASCII capitals are lowered give the
    same record, and so the same triage. *)
Theorem parser_ignores_case (a b : string) :
  lower_ascii a = lower_ascii b ->
  localExtract a = localExtract b
  /\ calculate (localExtract a) = calculate (localExtract b).
Proof.
  intros E.
  assert (L : localExtract a = localExtract b).
  { rewrite <- (localExtract_lower a), <- (localExtract_lower b), E.
    reflexivity. }
  split; [exact L | rewrite L; reflexivity].
Qed.

Lemma parser_ignores_case_witness :
  lower_ascii "SPO2 85, Passed Out" = lower_ascii "spo2 85, passed out"
  /\ localExtract "SPO2 85, Passed Out" = localExtract "spo2 85, passed out"
  /\ calculate (localExtract "SPO2 85, Passed Out")
     = calculate (localExtract "spo2 85, passed out").
Proof.
  split; [reflexivity |].
  apply (parser_ignores_case "SPO2 85, Passed Out" "spo2 85, passed out").
  reflexivity.
Defined.

(** ** The supervisor: replies and logs *)

(** Every run of [processEmergencyChat] is of one of the three kinds. *)
Lemma chat_run_complete (ai : GoogleGenAI) (input : string) (lang : Language) :
  exists r log,
    run_chat ai input lang = (Returns r, log) /\ chat_run ai input lang r log.
Proof.
  destruct (extractVitals ai input) as [| aiVitals] eqn:X.
  - exists (offline_reply (localExtract input)). eexists.
    split; [| apply extraction_failed; exact X].
    step_chat. rewrite X. reflexivity.
  - destruct (explain ai
                (priority (calculate (spread (localExtract input) aiVitals)))
                (reasons (calculate (spread (localExtract input) aiVitals)))
                input lang) as [| content] eqn:E.
    + exists (offline_reply (localExtract input)). eexists.
      split; [| apply (explanation_failed ai input lang aiVitals X E)].
      step_chat. rewrite X. cbn [app]. rewrite E. reflexivity.
    + exists (online_reply (spread (localExtract input) aiVitals) content).
      eexists.
      split; [| apply (both_succeeded ai input lang aiVitals content X E)].
      step_chat. rewrite X. cbn [app]. rewrite E. reflexivity.
Qed.

Lemma chat_run_of (ai : GoogleGenAI) (input : string) (lang : Language)
  (r : Reply) (log : list Event) :
  run_chat ai input lang = (Returns r, log) -> chat_run ai input lang r log.
Proof.
  intros H. destruct (chat_run_complete ai input lang) as (r' & log' & R & C).
  rewrite R in H. injection H as <- <-. exact C.
Qed.

(** X13.  A reply marked offline is built from the text alone: its vitals
    are those of the local parser, its triage the engine's on them, its
    explanation the fixed English sentence, and its first aid one of two
    fixed sentences chosen by the priority; the warning was logged. *)
Theorem offline_reply_is_local (ai : GoogleGenAI) (input : string)
  (lang : Language) (r : Reply) (log : list Event) :
  run_chat ai input lang = (Returns r, log) ->
  isOffline r = true ->
  r = offline_reply (localExtract input)
  /\ vitals r = localExtract input
  /\ triage r = calculate (localExtract input)
  /\ (priority (triage r) = CRITICAL ->
      firstAid r
      = Some "Apply pressure to wounds. Keep airway clear. Wait for help.")
  /\ (priority (triage r) <> CRITICAL ->
      firstAid r
      = Some "Stay calm. Monitor breathing and stay in a safe place.")
  /\ In ConsoleWarn log.
Proof.
  intros H O. apply chat_run_of in H.
  assert (F : r = offline_reply (localExtract input) /\ In ConsoleWarn log).
  { destruct H; [| | discriminate]; split; simpl; auto. }
  destruct F as [-> W].
  unfold offline_reply. cbn [vitals triage firstAid].
  repeat match goal with |- _ /\ _ => split end; try reflexivity;
    try exact W.
  - intros ->. reflexivity.
  - intros N. destruct (priority (calculate (localExtract input)));
      [contradiction | reflexivity ..].
Qed.

Lemma offline_reply_is_local_witness :
  exists r log,
    run_chat Samples.unreachable "bp 85/60" hi = (Returns r, log)
    /\ isOffline r = true
    /\ vitals r = localExtract "bp 85/60"
    /\ firstAid r
       = Some "Apply pressure to wounds. Keep airway clear. Wait for help.".
Proof.
  destruct (chat_run_complete Samples.unreachable "bp 85/60" hi)
    as (r & log & R & C).
  exists r, log.
  assert (O : isOffline r = true).
  { destruct C as [| aiVitals finalVitals X | aiVitals content finalVitals X];
      [reflexivity | reflexivity | discriminate X]. }
  destruct (offline_reply_is_local Samples.unreachable "bp 85/60" hi r log R O)
    as (_ & V & T & F & _).
  repeat split; auto.
  apply F. rewrite T. reflexivity.
Defined.

(** X14.  A reply not marked offline comes from a run in which both
    requests succeeded: its vitals are the local ones merged with the remote
    ones, its triage is the engine's on them, its texts are the remote
    ones, and the engine was called once and nothing was caught. *)
Theorem online_reply_is_merged (ai : GoogleGenAI) (input : string)
  (lang : Language) (r : Reply) (log : list Event) :
  run_chat ai input lang = (Returns r, log) ->
  isOffline r = false ->
  exists aiVitals content,
    extractVitals ai input = Returns aiVitals
    /\ explain ai (priority (triage r)) (reasons (triage r)) input lang
       = Returns content
    /\ vitals r = spread (localExtract input) aiVitals
    /\ triage r = calculate (vitals r)
    /\ aiExplanation r = explanation content
    /\ firstAid r = firstAidText content
    /\ engine_calls log = [vitals r]
    /\ ~ In ConsoleWarn log.
Proof.
  intros H O. apply chat_run_of in H.
  destruct H as [| | aiVitals content finalVitals X E]; try discriminate.
  exists aiVitals, content. cbn [online_reply vitals triage aiExplanation
    firstAid]. repeat match goal with |- _ /\ _ => split end; auto.
  simpl. unfold explanation_request. intuition discriminate.
Qed.

Lemma online_reply_is_merged_witness :
  exists r log,
    run_chat Samples.answering "temperature 39, age 65" en = (Returns r, log)
    /\ isOffline r = false
    /\ engine_calls log = [vitals r]
    /\ triage r = calculate (vitals r).
Proof.
  destruct (chat_run_complete Samples.answering "temperature 39, age 65" en)
    as (r & log & R & C).
  exists r, log.
  assert (O : isOffline r = false).
  { destruct C as [X | aiVitals finalVitals X E | aiVitals content finalVitals X];
      [discriminate X | discriminate E | reflexivity]. }
  destruct (online_reply_is_merged Samples.answering "temperature 39, age 65"
              en r log R O)
    as (a & c & _ & _ & _ & T & _ & _ & G & _).
  auto.
Defined.

(** X15.  What a run asks of the remote model and of the engine: the log
    starts with the extraction request; the engine is called once or twice;
    an explanation is requested only after an extraction that succeeded,
    once, with the priority and the reasons of the engine on the merged
    vitals. *)
Theorem requests_of_a_run (ai : GoogleGenAI) (input : string)
  (lang : Language) :
  exists r log,
    run_chat ai input lang = (Returns r, log)
    /\ List.hd_error log = Some (ExtractionRequest input)
    /\ (1 <= List.length (engine_calls log) <= 2)%nat
    /\ (forall p rs i l,
          In (ExplanationRequest p rs i l) log ->
          exists aiVitals,
            extractVitals ai input = Returns aiVitals
            /\ p = priority (calculate (spread (localExtract input) aiVitals))
            /\ rs = reasons (calculate (spread (localExtract input) aiVitals))
            /\ i = input /\ l = lang)
    /\ (List.length
          (filter (fun e => match e with
                            | ExplanationRequest _ _ _ _ => true
                            | _ => false
                            end) log) <= 1)%nat.
Proof.
  destruct (chat_run_complete ai input lang) as (r & log & R & C).
  exists r, log. split; [exact R |].
  destruct C as [X | aiVitals finalVitals X E
                 | aiVitals content finalVitals X E];
    (split; [reflexivity |]); (split; [simpl; lia |]);
    (split; [| simpl; lia]);
    intros p rs i l H; simpl in H; unfold explanation_request in H;
    repeat (destruct H as [H | H]; try discriminate H; try contradiction);
    injection H as <- <- <- <-; exists aiVitals; auto.
Qed.

(** ** Keywords, and the algebra of the merge *)

(** X16.  A text that says "unconscious", "not waking" or "passed out",
    in any letter case, is read as an unconscious patient and triaged
    CRITICAL with score 10, whatever else it says. *)
Theorem unconscious_words_are_critical (input : string) :
  (includes (toLowerCase input) "unconscious"
   || includes (toLowerCase input) "not waking"
   || includes (toLowerCase input) "passed out") = true ->
  consciousness (localExtract input) = Some unconscious
  /\ priority (calculate (localExtract input)) = CRITICAL
  /\ score (calculate (localExtract input)) = 10
  /\ In "Patient is unconscious" (reasons (calculate (localExtract input))).
Proof.
  intros K.
  destruct (localExtract_fields input) as (_ & _ & _ & _ & _ & _ & C).
  cbv zeta in C. rewrite K in C. split; [exact C |].
  assert (N : checkRedFlags (localExtract input) <> []).
  { apply red_flags_iff. right. left. exact C. }
  rewrite (calculate_red_flag _ N). cbn [priority score reasons].
  do 2 (split; [reflexivity |]).
  apply is_unconscious in C.
  unfold checkRedFlags, push_if. rewrite C.
  split_tests; simpl; tauto.
Qed.

Lemma unconscious_words_are_critical_witness :
  consciousness (localExtract "He PASSED OUT, spo2 99, bp 120/80")
  = Some unconscious
  /\ priority (calculate (localExtract "He PASSED OUT, spo2 99, bp 120/80"))
     = CRITICAL.
Proof.
  destruct (unconscious_words_are_critical
              "He PASSED OUT, spo2 99, bp 120/80" eq_refl) as (C & P & _).
  split; [exact C | exact P].
Defined.

(** X17.  The keywords are tried in a fixed order: in a text with no word
    for unconsciousness (none in its lower-case form, the Kelvin sign read
    as k), "confused" or "disoriented" wins over "sleepy"
    and "drowsy", and since the engine scores a confused patient as an
    alert one, the drowsiness such a text mentions adds nothing. *)
Theorem confusion_hides_drowsiness (input : string) :
  (includes (toLowerCase input) "unconscious"
   || includes (toLowerCase input) "not waking"
   || includes (toLowerCase input) "passed out") = false ->
  (includes (toLowerCase input) "confused"
   || includes (toLowerCase input) "disoriented") = true ->
  consciousness (localExtract input) = Some confused
  /\ calculate (localExtract input)
     = calculate (set_consciousness (Some alert) (localExtract input))
  /\ D_Disability (abcde_status (calculate (localExtract input))) = "ALERT".
Proof.
  intros U K.
  destruct (localExtract_fields input) as (_ & _ & _ & _ & _ & _ & C).
  cbv zeta in C. rewrite U, K in C. split; [exact C |].
  split.
  - apply calculate_ext; unfold checkRedFlags, computeABCDE; open_rules;
      unfold consciousness_is, doctor_assessment_is; project_fields;
      rewrite C; reflexivity.
  - rewrite abcde_of_calculate. unfold computeABCDE, consciousness_is.
    rewrite C. reflexivity.
Qed.

Lemma confusion_hides_drowsiness_witness :
  consciousness (localExtract "confused and very drowsy") = Some confused
  /\ score (calculate (localExtract "confused and very drowsy")) = 0.
Proof.
  destruct (confusion_hides_drowsiness "confused and very drowsy"
              eq_refl eq_refl) as (C & E & _).
  split; [exact C |]. rewrite E. reflexivity.
Defined.

(** Text outside ASCII.  The Kelvin sign lowers to k, so "not waKing"
    is a phrase for unconsciousness; a no-break space between the number and
    the percent sign is white space for [\s*], a zero-width space is not. *)
Example kelvin_sign_is_lowered :
  consciousness (localExtract "confused, not waKing") = Some unconscious.
Proof. reflexivity. Qed.

Example no_break_space_is_blank :
  spo2 (localExtract "85 %") = Some (Fin 85)
  /\ heart_rate (localExtract "72　BPM") = Some (Fin 72)
  /\ spo2 (localExtract "85​%") = None.
Proof. repeat split. Qed.

Lemma spread_property_assoc {A : Type} (a b c : option A) :
  spread_property (spread_property a b) c
  = spread_property a (spread_property b c).
Proof. destruct c, b; reflexivity. Qed.

Lemma spread_property_idem {A : Type} (a : option A) : spread_property a a = a.
Proof. destruct a; reflexivity. Qed.

Lemma spread_property_full {A : Type} (a b : option A) :
  b <> None -> spread_property a b = b.
Proof. destruct b; [reflexivity | contradiction]. Qed.

(** X18.  Merging is associative, merging a record with itself or into the
    empty record changes nothing, and a remote record that has every field
    replaces the local one entirely. *)
Theorem spread_laws (a b c : Vitals) :
  spread (spread a b) c = spread a (spread b c)
  /\ spread a a = a
  /\ spread empty_vitals a = a
  /\ (age b <> None -> systolic_bp b <> None -> heart_rate b <> None ->
      spo2 b <> None -> temperature b <> None -> consciousness b <> None ->
      doctor_assessment b <> None -> spread a b = b).
Proof.
  split; [| split; [| split]].
  - unfold spread. project_fields. rewrite !spread_property_assoc.
    reflexivity.
  - rewrite (vitals_eta a) at 3. unfold spread.
    rewrite !spread_property_idem. reflexivity.
  - rewrite (vitals_eta a) at 2. unfold spread. project_fields.
    unfold empty_vitals. project_fields.
    destruct a as [[] [] [] [] [] [] []]; reflexivity.
  - intros. rewrite (vitals_eta b) at 2. unfold spread.
    rewrite !spread_property_full by assumption. reflexivity.
Qed.

(** ** Thresholds and the narrative *)

Lemma at_least_90 (q : Q) :
  (90 <= q)%Q ->
  truthy (Some (Fin q)) = true /\ num_lt (Fin q) (Fin 90) = false
  /\ num_le (Fin 90) (Fin q) = true.
Proof.
  intros L. cbn [truthy num_lt num_le]. unfold Qlt_bool.
  assert (B : Qle_bool 90 q = true) by (apply Qle_bool_iff; exact L).
  rewrite B. repeat split.
  destruct (Qeq_bool q 0) eqn:E; [| reflexivity].
  apply Qeq_bool_eq in E. rewrite E in L. exfalso.
  revert L. unfold Qle. simpl. lia.
Qed.

Lemma below_92 (q : Q) : (q < 92)%Q -> num_lt (Fin q) (Fin 92) = true.
Proof.
  intros L. cbn [num_lt]. unfold Qlt_bool.
  destruct (Qle_bool 92 q) eqn:B; [| reflexivity].
  apply Qle_bool_iff in B. exfalso. apply (Qlt_not_le _ _ L B).
Qed.

Lemma same_flags_exact (a b : Vitals) (w : Z) :
  checkRedFlags a = checkRedFlags b ->
  fst (accumulate a) = fst (accumulate b) + w ->
  red_flags_detected (calculate a) = red_flags_detected (calculate b)
  /\ (red_flags_detected (calculate b) = false ->
      score (calculate a) = score (calculate b) + w).
Proof.
  intros F S.
  destruct (red_flags_dec b) as [E | N].
  - assert (E' : checkRedFlags a = []) by congruence.
    destruct (scored_fields a E') as (-> & _ & _ & ->).
    destruct (scored_fields b E) as (-> & _ & _ & ->). auto.
  - assert (N' : checkRedFlags a <> []) by congruence.
    rewrite (calculate_red_flag a N'), (calculate_red_flag b N).
    cbn [red_flags_detected score]. split; [reflexivity | discriminate].
Qed.

(** X19.  The bands of the oxygen saturation.  A value from 90 up to, not
    including, 92 raises no red flag, adds 2 points on the scoring path and
    reads LOW-NORMAL; a value of 92 or more changes neither the red flags
    nor the score and reads ADEQUATE.  (Below 90 is the red flag.) *)
Theorem oxygen_bands (v : Vitals) (q : Q) :
  ((90 <= q)%Q -> (q < 92)%Q ->
   let r := calculate (set_spo2 (Some (Fin q)) v) in
   let r0 := calculate (set_spo2 None v) in
   red_flags_detected r = red_flags_detected r0
   /\ (red_flags_detected r0 = false -> score r = score r0 + 2)
   /\ B_Breathing (abcde_status r) = "LOW-NORMAL")
  /\ ((92 <= q)%Q ->
      let r := calculate (set_spo2 (Some (Fin q)) v) in
      let r0 := calculate (set_spo2 None v) in
      red_flags_detected r = red_flags_detected r0
      /\ score r = score r0
      /\ B_Breathing (abcde_status r) = "ADEQUATE").
Proof.
  split.
  - intros L U. cbv zeta.
    destruct (at_least_90 q L) as (T & L90 & G90).
    pose proof (below_92 q U) as L92.
    rewrite abcde_of_calculate. rewrite <- and_assoc. split.
    + apply same_flags_exact.
      * unfold checkRedFlags, consciousness_is, doctor_assessment_is.
        project_fields. unfold JS.lt. cbn [ToNumber].
        rewrite T, L90. reflexivity.
      * rewrite !accumulate_sum.
        assert (B : fst (rule_breathing (set_spo2 (Some (Fin q)) v) (0, []))
                    = 2).
        { unfold rule_breathing. project_fields. unfold JS.lt, JS.ge.
          cbn [ToNumber]. rewrite T, L92, G90. reflexivity. }
        assert (B0 : fst (rule_breathing (set_spo2 None v) (0, [])) = 0)
          by reflexivity.
        rewrite B, B0.
        unfold rule_heart_rate, rule_blood_pressure, rule_disability,
          rule_exposure, rule_age, rule_provider, consciousness_is,
          doctor_assessment_is.
        project_fields. lia.
    + unfold computeABCDE. cbn [B_Breathing]. project_fields.
      unfold JS.lt. cbn [ToNumber]. rewrite T, L90, L92. reflexivity.
  - intros L. cbv zeta.
    assert (L' : num_le (Fin 92) (Fin q) = true)
      by (cbn [num_le]; apply Qle_bool_iff; exact L).
    destruct (le_92_adequate (Fin q) L') as (T & L90 & L92).
    rewrite abcde_of_calculate.
    assert (S : red_flags_detected (calculate (set_spo2 (Some (Fin q)) v))
                = red_flags_detected (calculate (set_spo2 None v))
                /\ score (calculate (set_spo2 None v))
                   <= score (calculate (set_spo2 (Some (Fin q)) v))
                   <= score (calculate (set_spo2 None v)) + 0).
    { apply same_flags_scores.
      - unfold checkRedFlags, consciousness_is, doctor_assessment_is.
        project_fields. unfold JS.lt. cbn [ToNumber].
        rewrite T, L90. reflexivity.
      - rewrite !accumulate_sum.
        assert (B : fst (rule_breathing (set_spo2 (Some (Fin q)) v) (0, []))
                    = 0).
        { unfold rule_breathing. project_fields. unfold JS.lt, JS.ge.
          cbn [ToNumber]. rewrite L92, andb_false_r. reflexivity. }
        assert (B0 : fst (rule_breathing (set_spo2 None v) (0, [])) = 0)
          by reflexivity.
        rewrite B, B0.
        unfold rule_heart_rate, rule_blood_pressure, rule_disability,
          rule_exposure, rule_age, rule_provider, consciousness_is,
          doctor_assessment_is.
        project_fields. lia. }
    destruct S as (F & S). split; [exact F |]. split; [lia |].
    unfold computeABCDE. cbn [B_Breathing]. project_fields.
    unfold JS.lt. cbn [ToNumber]. rewrite T, L90, L92. reflexivity.
Qed.

Lemma oxygen_bands_witness :
  score (calculate (set_spo2 (Some (Fin 90)) Samples.fever_at_65))
  = score (calculate (set_spo2 None Samples.fever_at_65)) + 2
  /\ B_Breathing (abcde_status
       (calculate (set_spo2 (Some (Fin 92)) Samples.fever_at_65)))
     = "ADEQUATE".
Proof.
  destruct (oxygen_bands Samples.fever_at_65 90) as (B & _).
  destruct (oxygen_bands Samples.fever_at_65 92) as (_ & A).
  split.
  - apply B; reflexivity || (unfold Qle, Qlt; simpl; lia).
  - apply A. unfold Qle. simpl. lia.
Defined.

(** X20.  The narrative of a red-flag result names one flag, the first in
    the order oxygen, unconsciousness, pressure, provider. *)
Theorem narrative_names_first_flag (v : Vitals) :
  let says (flag : string) :=
    narrative_summary (calculate v)
    = ("CRITICAL: " ++ flag ++ ". Immediate emergency response required.")%string in
  (critically_low (spo2 v) -> says "Oxygen saturation critically low (<90%)")
  /\ (~ critically_low (spo2 v) -> consciousness v = Some unconscious ->
      says "Patient is unconscious")
  /\ (~ critically_low (spo2 v) -> consciousness v <> Some unconscious ->
      critically_low (systolic_bp v) ->
      says "Blood pressure critically low (<90 mmHg)")
  /\ (~ critically_low (spo2 v) -> consciousness v <> Some unconscious ->
      ~ critically_low (systolic_bp v) ->
      doctor_assessment v = Some critical ->
      says "Clinical provider indicates critical condition").
Proof.
  cbv zeta.
  rewrite <- !guard_critically_low, <- is_unconscious, <- is_critical.
  assert (R : forall flag,
             first_flag (checkRedFlags v) = flag ->
             checkRedFlags v <> [] ->
             narrative_summary (calculate v)
             = ("CRITICAL: " ++ flag
                ++ ". Immediate emergency response required.")%string).
  { intros flag <- N. rewrite (calculate_red_flag v N). reflexivity. }
  unfold checkRedFlags, push_if in R.
  repeat match goal with |- _ /\ _ => split end; intros;
    repeat match goal with
           | H : ?c = true |- _ => rewrite H in R
           | H : ?c <> true |- _ => apply not_true_is_false in H; rewrite H in R
           end;
    apply R; split_tests; simpl; (reflexivity || discriminate).
Qed.

Lemma narrative_names_first_flag_witness :
  narrative_summary (calculate Samples.spo2_88)
  = "CRITICAL: Oxygen saturation critically low (<90%). Immediate emergency response required.".
Proof.
  destruct (narrative_names_first_flag Samples.spo2_88) as (K & _).
  apply K. exists (Fin 88). repeat split.
Defined.
